(** * Met Office forecast to Pushbullet sparkline: glyph encoding and the
      nice-day classifier

    A shallow embedding of [send_met_office_weather_to_pushbullet.py]:
    the glyph tables, [string_to_fullwidth], [get_am_pm],
    [get_weather_icon], [get_temperature], [get_wind_speed],
    [calc_nice_day_emoticon] and the loop of [main] that composes the body
    of the note.  The two network collaborators (the Met Office request and
    the Pushbullet push) are outside the embedding: a forecast list is an
    input, the composed body is the output.  The calls to [logging] only
    write to the console and are left out.

    Dictionaries are finite maps and a subscription [d[k]] can raise
    [KeyError], so that "raises nothing" is a theorem and not a convention.
    Integers are [Z]; a string is the list of its code points. *)

From Stdlib Require Import ZArith NArith QArith String Ascii List Lia.
From stdpp Require Import gmap strings list fin_maps.

Close Scope Q_scope.
Open Scope Z_scope.

(** ** The Python values the program computes with *)

Module Py.

(** A Python [str] is a sequence of Unicode code points; [len] counts code
    points.  A one-character string is identified with its code point when it
    is used as a dictionary key. *)
Definition char := N.
Definition pystr := list char.

(** An ASCII literal of the source. *)
Definition lit (s : string) : pystr := N_of_ascii <$> list_ascii_of_string s.

Definition ch (a : ascii) : char := N_of_ascii a.

Definition len {A} (l : list A) : Z := Z.of_nat (length l).

(** The only exception the embedded functions can raise is the [KeyError]
    of a failed dictionary subscription; it carries the missing key. *)
Inductive exception :=
| KeyError (key : pystr).

Inductive result (A : Type) :=
| Ok (a : A)
| Raise (e : exception).
Arguments Ok {A} a.
Arguments Raise {A} e.

#[global] Instance result_ret : MRet result := fun A a => Ok a.
#[global] Instance result_bind : MBind result := fun A B f r =>
  match r with
  | Ok a => f a
  | Raise e => Raise e
  end.

Definition is_Ok {A} (r : result A) : Prop := exists a, r = Ok a.
Definition raises {A} (r : result A) : Prop := exists e, r = Raise e.

(** How a key is shown in a [KeyError]. *)
Class PyKey (K : Type) := key_repr : K -> pystr.
#[global] Instance name_key : PyKey string := lit.
#[global] Instance char_key : PyKey char := fun c => [c].

(** [d[k]]: subscription of a dictionary. *)
Definition getitem {K} `{Countable K} `{PyKey K} {V}
    (d : gmap K V) (k : K) : result V :=
  match d !! k with
  | Some v => Ok v
  | None => Raise (KeyError (key_repr k))
  end.

(** [x in l] for a list of integers. *)
Definition contains (l : list Z) (x : Z) : bool := bool_decide (x ∈ l).

(** [range(start, stop)] and [x in range(start, stop)] for an integer [x]. *)
Record range := Range { start : Z; stop : Z }.
Definition in_range (r : range) (x : Z) : bool :=
  (start r <=? x) && (x <? stop r).

(** [s.rjust(width)]: pad on the left with spaces up to [width]. *)
Definition rjust (s : pystr) (width : Z) : pystr :=
  replicate (Z.to_nat (width - len s)) (ch " ") ++ s.

(** [s.upper()] on the ASCII letters (the only letters the program passes). *)
Definition upper_char (c : char) : char :=
  if ((97 <=? c) && (c <=? 122))%N then (c - 32)%N else c.
Definition upper (s : pystr) : pystr := upper_char <$> s.

(** [str(n)] for an integer: the decimal digits, with a minus sign for a
    negative number. *)
Fixpoint digits (d : Decimal.uint) : pystr :=
  match d with
  | Decimal.Nil => []
  | Decimal.D0 d => ch "0" :: digits d
  | Decimal.D1 d => ch "1" :: digits d
  | Decimal.D2 d => ch "2" :: digits d
  | Decimal.D3 d => ch "3" :: digits d
  | Decimal.D4 d => ch "4" :: digits d
  | Decimal.D5 d => ch "5" :: digits d
  | Decimal.D6 d => ch "6" :: digits d
  | Decimal.D7 d => ch "7" :: digits d
  | Decimal.D8 d => ch "8" :: digits d
  | Decimal.D9 d => ch "9" :: digits d
  end.
Definition str (n : Z) : pystr :=
  match Z.to_int n with
  | Decimal.Pos d => digits d
  | Decimal.Neg d => ch "-" :: digits d
  end.

(** [l[lo:hi]]: a bound below zero counts from the end, and every bound is
    clamped to the list. *)
Definition clamp (n : Z) (x : Z) : Z :=
  if x <? 0 then Z.max (x + n) 0 else Z.min x n.
Definition slice {A} (l : list A) (lo hi : Z) : list A :=
  let lo' := clamp (len l) lo in
  let hi' := clamp (len l) hi in
  take (Z.to_nat (hi' - lo')) (drop (Z.to_nat lo') l).

(** A [time] of day and a [datetime]: the proleptic Gregorian day number of
    the date ([toordinal()]) with the time of day ([time()]). *)
Record time := Time {
  hour : Z;
  minute : Z;
  second : Z
}.
Record datetime := Datetime {
  ordinal : Z;
  time_of : time
}.

(** [weekday()]: Monday is 0. *)
Definition weekday (d : datetime) : Z := (ordinal d + 6) mod 7.

(** [strftime('%a')] in the C locale. *)
Definition strftime_a (d : datetime) : pystr :=
  match weekday d with
  | 0 => lit "Mon"
  | 1 => lit "Tue"
  | 2 => lit "Wed"
  | 3 => lit "Thu"
  | 4 => lit "Fri"
  | 5 => lit "Sat"
  | _ => lit "Sun"
  end.

End Py.
Import Py.

Notation "d .[ k ]" := (getitem d k) (at level 1, k at level 99,
  left associativity, format "d .[ k ]").
Arguments getitem : simpl never.

(** ** The glyph tables *)

(** Fullwidth forms of the characters the notes are written with. *)
Definition FULLWIDTH_UNICODE : gmap char pystr := list_to_map [
  (ch " ", [0x3000%N]);
  (ch "-", [0xFF0D%N]);
  (ch "0", [0xFF10%N]);
  (ch "1", [0xFF11%N]);
  (ch "2", [0xFF12%N]);
  (ch "3", [0xFF13%N]);
  (ch "4", [0xFF14%N]);
  (ch "5", [0xFF15%N]);
  (ch "6", [0xFF16%N]);
  (ch "7", [0xFF17%N]);
  (ch "8", [0xFF18%N]);
  (ch "9", [0xFF19%N]);
  (ch "A", [0xFF21%N]);
  (ch "B", [0xFF22%N]);
  (ch "C", [0xFF23%N]);
  (ch "D", [0xFF24%N]);
  (ch "E", [0xFF25%N]);
  (ch "F", [0xFF26%N]);
  (ch "G", [0xFF27%N]);
  (ch "H", [0xFF28%N]);
  (ch "I", [0xFF29%N]);
  (ch "J", [0xFF2A%N]);
  (ch "K", [0xFF2B%N]);
  (ch "L", [0xFF2C%N]);
  (ch "M", [0xFF2D%N]);
  (ch "N", [0xFF2E%N]);
  (ch "O", [0xFF2F%N]);
  (ch "P", [0xFF30%N]);
  (ch "Q", [0xFF31%N]);
  (ch "R", [0xFF32%N]);
  (ch "S", [0xFF33%N]);
  (ch "T", [0xFF34%N]);
  (ch "U", [0xFF35%N]);
  (ch "V", [0xFF36%N]);
  (ch "W", [0xFF37%N]);
  (ch "X", [0xFF38%N]);
  (ch "Y", [0xFF39%N]);
  (ch "Z", [0xFF3A%N]);
  (ch "a", [0xFF41%N]);
  (ch "b", [0xFF42%N]);
  (ch "c", [0xFF43%N]);
  (ch "d", [0xFF44%N]);
  (ch "e", [0xFF45%N]);
  (ch "f", [0xFF46%N]);
  (ch "g", [0xFF47%N]);
  (ch "h", [0xFF48%N]);
  (ch "i", [0xFF49%N]);
  (ch "j", [0xFF4A%N]);
  (ch "k", [0xFF4B%N]);
  (ch "l", [0xFF4C%N]);
  (ch "m", [0xFF4D%N]);
  (ch "n", [0xFF4E%N]);
  (ch "o", [0xFF4F%N]);
  (ch "p", [0xFF50%N]);
  (ch "q", [0xFF51%N]);
  (ch "r", [0xFF52%N]);
  (ch "s", [0xFF53%N]);
  (ch "t", [0xFF54%N]);
  (ch "u", [0xFF55%N]);
  (ch "v", [0xFF56%N]);
  (ch "w", [0xFF57%N]);
  (ch "x", [0xFF58%N]);
  (ch "y", [0xFF59%N]);
  (ch "z", [0xFF5A%N]) ].

(** Smiley faces used for the nice-day mark. *)
Definition EMOTICONS_UNICODE : gmap string pystr := list_to_map [
  ("SMILEY FACE WITH OPEN MOUTH", [0x1F603%N]);
  ("NEUTRAL FACE",                [0x1F610%N]);
  ("DISAPPOINTED FACE",           [0x1F61E%N]);
  ("LOUDLY CRYING FACE",          [0x1F62D%N]) ].

(** Single, double and triple arrows used for the wind speed. *)
Definition ARROWS_UNICODE : gmap string pystr := list_to_map [
  ("RIGHTWARDS ARROW",         [0x2192%N]);
  ("RIGHTWARDS PAIRED ARROWS", [0x21C9%N]);
  ("THREE RIGHTWARDS ARROWS",  [0x21F6%N]) ].

Definition DEGREE_CELSIUS_UNICODE : pystr := [0x2103%N].

(** Weather symbols. *)
Definition WEATHER_UNICODE : gmap string pystr := list_to_map [
  ("CRESCENT MOON",            [0x1F319%N]);
  ("BLACK SUN WITH RAYS",      [0x2600%N]);
  ("SUN BEHIND CLOUD",         [0x26C5%N]);
  ("CLOUD",                    [0x2601%N]);
  ("FOGGY",                    [0x1F301%N]);
  ("UMBRELLA WITH RAIN DROPS", [0x2614%N]);
  ("SNOWFLAKE",                [0x2744%N]);
  ("THUNDER CLOUD AND RAIN",   [0x26C8%N]) ].

(** a.m. and p.m. *)
Definition MERIDIEM_UNICODE : gmap string pystr := list_to_map [
  ("SQUARE AM", [0x33C2%N]);
  ("SQUARE PM", [0x33D8%N]) ].

(** Met Office weather types. *)
Definition WEATHER_TYPES : gmap string Z := list_to_map [
  ("Clear night",                 0);
  ("Sunny day",                   1);
  ("Partly cloudy (night)",       2);
  ("Partly cloudy (day)",         3);
  ("Not used",                    4);
  ("Mist",                        5);
  ("Fog",                         6);
  ("Cloudy",                      7);
  ("Overcast",                    8);
  ("Light rain shower (night)",   9);
  ("Light rain shower (day)",    10);
  ("Drizzle",                    11);
  ("Light rain",                 12);
  ("Heavy rain shower (night)",  13);
  ("Heavy rain shower (day)",    14);
  ("Heavy rain",                 15);
  ("Sleet shower (night)",       16);
  ("Sleet shower (day)",         17);
  ("Sleet",                      18);
  ("Hail shower (night)",        19);
  ("Hail shower (day)",          20);
  ("Hail",                       21);
  ("Light snow shower (night)",  22);
  ("Light snow shower (day)",    23);
  ("Light snow",                 24);
  ("Heavy snow shower: (night)", 25);
  ("Heavy snow shower (day)",    26);
  ("Heavy snow",                 27);
  ("Thunder shower (night)",     28);
  ("Thunder shower (day)",       29);
  ("Thunder",                    30) ].

(** ** The formatters *)

(** The loop of [string_to_fullwidth]: [fullwidth_string] is the string
    built so far. *)
Fixpoint fullwidth_loop (string fullwidth_string : pystr) : result pystr :=
  match string with
  | [] => Ok fullwidth_string
  | char :: rest =>
      glyph ← FULLWIDTH_UNICODE.[char];
      fullwidth_loop rest (fullwidth_string ++ glyph)
  end.

(** Translate any string to fullwidth characters. *)
Definition string_to_fullwidth (string : pystr) (rjustlen : Z) : result pystr :=
  let string := if 0 <? rjustlen then rjust string rjustlen else string in
  fullwidth_loop string [].

(** The a.m. or p.m. symbol of a time. *)
Definition get_am_pm (time : time) : result pystr :=
  if hour time <? 12
  then MERIDIEM_UNICODE.["SQUARE AM"]
  else MERIDIEM_UNICODE.["SQUARE PM"].

(** The symbol of a Met Office weather type. *)
Definition get_weather_icon (weather_type : Z) : result pystr :=
  w0 ← WEATHER_TYPES.["Clear night"];
  let clear_night := [w0] in
  w1 ← WEATHER_TYPES.["Sunny day"];
  let sun := [w1] in
  w3 ← WEATHER_TYPES.["Partly cloudy (day)"];
  let sun_cloud := [w3] in
  w2 ← WEATHER_TYPES.["Partly cloudy (night)"];
  w7 ← WEATHER_TYPES.["Cloudy"];
  w8 ← WEATHER_TYPES.["Overcast"];
  let cloud := [w2; w7; w8] in
  w5 ← WEATHER_TYPES.["Mist"];
  w6 ← WEATHER_TYPES.["Fog"];
  let fog := [w5; w6] in
  r0 ← WEATHER_TYPES.["Light rain shower (night)"];
  r1 ← WEATHER_TYPES.["Hail"];
  let rain := Range r0 r1 in
  s0 ← WEATHER_TYPES.["Light snow shower (night)"];
  s1 ← WEATHER_TYPES.["Heavy snow"];
  let snow := Range s0 s1 in
  t0 ← WEATHER_TYPES.["Thunder shower (night)"];
  t1 ← WEATHER_TYPES.["Thunder"];
  let thunder := Range t0 t1 in
  if contains clear_night weather_type then WEATHER_UNICODE.["CRESCENT MOON"]
  else if contains sun weather_type then WEATHER_UNICODE.["BLACK SUN WITH RAYS"]
  else if contains sun_cloud weather_type then WEATHER_UNICODE.["SUN BEHIND CLOUD"]
  else if contains cloud weather_type then WEATHER_UNICODE.["CLOUD"]
  else if contains fog weather_type then WEATHER_UNICODE.["FOGGY"]
  else if in_range rain weather_type then WEATHER_UNICODE.["UMBRELLA WITH RAIN DROPS"]
  else if in_range snow weather_type then WEATHER_UNICODE.["SNOWFLAKE"]
  else if in_range thunder weather_type then WEATHER_UNICODE.["THUNDER CLOUD AND RAIN"]
  else WEATHER_UNICODE.["CLOUD"].

(** The temperature, right justified, with the degrees Celsius symbol. *)
Definition get_temperature (temperature : Z) : result pystr :=
  t ← string_to_fullwidth (str temperature) 3;
  Ok (t ++ DEGREE_CELSIUS_UNICODE).

(** The arrows of the wind strength, then the speed and [mph]. *)
Definition get_wind_speed (speed : Z) : result pystr :=
  wind_speed ←
    (if speed <? 10 then ARROWS_UNICODE.["RIGHTWARDS ARROW"]
     else if speed <? 20 then ARROWS_UNICODE.["RIGHTWARDS PAIRED ARROWS"]
     else ARROWS_UNICODE.["THREE RIGHTWARDS ARROWS"]);
  s ← string_to_fullwidth (str speed) 2;
  Ok (wind_speed ++ (s ++ lit "mph")).

(** ** The nice-day classifier *)

(** A forecast as [get_met_office_3hourly_forecast] builds it.  [period] is
    the quotient [minutes / (24 * 60 / 8) + 1], a number that [main] only
    compares with 4 and 5. *)
Record forecast := Forecast {
  period : Q;
  from : datetime;
  to : datetime;
  weather_type : Z;
  temperature_c : Z;
  wind_speed_mph : Z;
  rain_probability_pc : Z
}.

(** Nice weather is a clear or cloudy day with a wind speed <= 15 mph and a
    chance of rain <= 20%. *)
Definition nice_weather (nice_weather_types : list Z) (forecast : forecast) : bool :=
  contains nice_weather_types (weather_type forecast)
  && (wind_speed_mph forecast <=? 15)
  && (rain_probability_pc forecast <=? 20).

(** The loop over [enumerate(reversed(recent_forecasts))], from position [i]
    on; the end of the list is the end of the loop. *)
Fixpoint nice_day_loop (nice_weather_types : list Z) (i : Z)
    (reversed : list forecast) : result pystr :=
  match reversed with
  | [] => EMOTICONS_UNICODE.["SMILEY FACE WITH OPEN MOUTH"]
  | forecast :: rest =>
      if negb (nice_weather nice_weather_types forecast) then
        if i <=? 1 then EMOTICONS_UNICODE.["LOUDLY CRYING FACE"]
        else EMOTICONS_UNICODE.["NEUTRAL FACE"]
      else nice_day_loop nice_weather_types (i + 1) rest
  end.

(** Look back at the forecast at [current_index] and the three before it. *)
Definition calc_nice_day_emoticon (current_index : Z)
    (forecasts : list forecast) : result pystr :=
  w0 ← WEATHER_TYPES.["Clear night"];
  w1 ← WEATHER_TYPES.["Sunny day"];
  w2 ← WEATHER_TYPES.["Partly cloudy (night)"];
  w3 ← WEATHER_TYPES.["Partly cloudy (day)"];
  w7 ← WEATHER_TYPES.["Cloudy"];
  let nice_weather_types := [w0; w1; w2; w3; w7] in
  let recent_forecasts :=
    slice forecasts (Z.max (current_index - 3) 0) (current_index + 1) in
  nice_day_loop nice_weather_types 0 (reverse recent_forecasts).

(** ** The body of the note *)

Definition newline : pystr := [10%N].

(** [enumerate(l)], counting from [i]. *)
Fixpoint enumerate_from {A} (i : Z) (l : list A) : list (Z * A) :=
  match l with
  | [] => []
  | x :: l => (i, x) :: enumerate_from (i + 1) l
  end.
Definition enumerate {A} (l : list A) : list (Z * A) := enumerate_from 0 l.

(** Only periods 4 (9am-12pm) and 5 (12pm-3pm) are sent. *)
Definition period_4_or_5 (forecast : forecast) : bool :=
  Qeq_bool (period forecast) 4 || Qeq_bool (period forecast) 5.

(** The loop of [main] over [enumerate(forecasts)]; [body] is the text built
    so far.  An exception leaves the loop. *)
Fixpoint main_loop (forecasts : list forecast)
    (todo : list (Z * forecast)) (body : pystr) : result pystr :=
  match todo with
  | [] => Ok body
  | (i, forecast) :: todo =>
      if period_4_or_5 forecast then
        let body := if bool_decide (body ≠ []) then body ++ newline else body in
        day ← string_to_fullwidth (upper (strftime_a (from forecast))) 0;
        let body := body ++ day in
        am_pm ← get_am_pm (time_of (from forecast));
        let body := body ++ am_pm in
        emoticon ← calc_nice_day_emoticon i forecasts;
        let body := body ++ emoticon in
        icon ← get_weather_icon (weather_type forecast);
        let body := body ++ icon in
        temperature ← get_temperature (temperature_c forecast);
        let body := body ++ temperature in
        wind ← get_wind_speed (wind_speed_mph forecast);
        let body := body ++ wind in
        main_loop forecasts todo body
      else main_loop forecasts todo body
  end.

(** The body that [main] hands to Pushbullet. *)
Definition main_body (forecasts : list forecast) : result pystr :=
  main_loop forecasts (enumerate forecasts) [].

(** ** The run of [main] *)

(** [main] between its two collaborators.  [get_met_office_3hourly_forecast]
    is called before the [try]: what it raises leaves [main].  The body is
    composed and pushed inside the [try]: what is raised there is caught and
    logged.  [sys.argv] is the list of the arguments, the program name
    first. *)
Section Main.

(** What the collaborators raise, whatever it is. *)
Variable error : Type.

(** The forecast source: the name of the location and the forecasts, or
    an exception. *)
Variable get_met_office_3hourly_forecast :
  pystr -> error + (pystr * list forecast).

(** [Pushbullet(key).push_note(title, body)]: delivered, or an exception. *)
Variable push_note : pystr -> pystr -> option error.

Inductive outcome :=
| No_location
| Uncaught (e : error)
| Sent (title body : pystr)
| Caught_composing (e : exception)
| Caught_pushing (e : error).

Definition main (argv : list pystr) : outcome :=
  if negb (len argv =? 2) then No_location
  else
    match get_met_office_3hourly_forecast (default [] (argv !! 1%nat)) with
    | inl e => Uncaught e
    | inr (location_name, forecasts) =>
        match main_body forecasts with
        | Raise e => Caught_composing e
        | Ok body =>
            let title := lit "Weather for " ++ location_name in
            match push_note title body with
            | Some e => Caught_pushing e
            | None => Sent title body
            end
        end
    end.

End Main.

Arguments No_location {error}.
Arguments Uncaught {error} e.
Arguments Sent {error} title body.
Arguments Caught_composing {error} e.
Arguments Caught_pushing {error} e.

(** ** The vocabulary of the specification and of the proofs *)

(** The supported set of the encoder, as the specification words it:
    uppercase and lowercase ASCII letters, the digits, space and hyphen. *)
Definition supported (c : char) : Prop :=
  (65 <= c <= 90 \/ 97 <= c <= 122 \/ 48 <= c <= 57 \/ c = 32 \/ c = 45)%N.

(** The same set as a test that computes. *)
Definition supportedb (c : char) : bool :=
  ((65 <=? c) && (c <=? 90) || (97 <=? c) && (c <=? 122)
   || (48 <=? c) && (c <=? 57) || (c =? 32) || (c =? 45))%N.

(** The fullwidth form of a supported character, in closed form: the
    ideographic space for the space, and the ASCII code moved to the
    fullwidth block for the others. *)
Definition fullwidth_char (c : char) : char :=
  if (c =? 32)%N then 0x3000%N else (c + 0xFEE0)%N.

(** A record is nice, as the specification words it: its weather type code
    is in {0, 1, 2, 3, 7}, its wind speed is at most 15 and its rain
    probability at most 20. *)
Definition nice (f : forecast) : Prop :=
  weather_type f ∈ [0; 1; 2; 3; 7] /\
  wind_speed_mph f <= 15 /\
  rain_probability_pc f <= 20.

(** The window of the specification, [forecasts[max(index-3, 0) .. index]]
    with both ends included: the records at these positions, in
    chronological order. *)
Definition window (index : Z) (forecasts : list forecast) : list forecast :=
  omap (fun k => forecasts !! Z.to_nat k)
       (seqZ (Z.max (index - 3) 0) (index - Z.max (index - 3) 0 + 1)).

(** A forecast for the examples: a Monday morning, period 4, 10 degrees, with
    the weather type, wind speed and rain probability given. *)
Definition sample (weather wind rain : Z) : forecast :=
  {| period := inject_Z 4;
     from := Datetime 738004 (Time 9 0 0);
     to := Datetime 738004 (Time 11 59 59);
     weather_type := weather;
     temperature_c := 10;
     wind_speed_mph := wind;
     rain_probability_pc := rain |}.

(** The line of one selected record, as the specification composes it: the
    weekday, the meridiem, the nice-day glyph, the weather glyph, the
    temperature and the wind, in this order. *)
Definition compose_line (i : Z) (forecasts : list forecast)
    (forecast : forecast) : result pystr :=
  day ← string_to_fullwidth (upper (strftime_a (from forecast))) 0;
  am_pm ← get_am_pm (time_of (from forecast));
  emoticon ← calc_nice_day_emoticon i forecasts;
  icon ← get_weather_icon (weather_type forecast);
  temperature ← get_temperature (temperature_c forecast);
  wind ← get_wind_speed (wind_speed_mph forecast);
  Ok (day ++ am_pm ++ emoticon ++ icon ++ temperature ++ wind).

(** Lines joined by a newline, with none after the last line. *)
Fixpoint join_lines (lines : list pystr) : pystr :=
  match lines with
  | [] => []
  | line :: lines =>
      match lines with
      | [] => line
      | _ :: _ => line ++ newline ++ join_lines lines
      end
  end.

(** What one turn of the loop of [main] does to the body with the line of
    a selected record. *)
Definition add_line (body line : pystr) : pystr :=
  (if bool_decide (body ≠ []) then body ++ newline else body) ++ line.

(** The records that [main] sends, with their positions. *)
Definition selected (forecasts : list forecast) : list (Z * forecast) :=
  filter (fun p => period_4_or_5 p.2 = true) (enumerate forecasts).

(** A code point above the newline: no glyph of the note is a newline. *)
Definition above_newline (c : char) : Prop := (10 < c)%N.

(** The sample forecast moved to another period of the day. *)
Definition at_period (p : Z) (f : forecast) : forecast :=
  {| period := inject_Z p;
     from := from f;
     to := to f;
     weather_type := weather_type f;
     temperature_c := temperature_c f;
     wind_speed_mph := wind_speed_mph f;
     rain_probability_pc := rain_probability_pc f |}.

(** * Properties *)

(** ** The Python model on examples *)

Example str_12 : str 12 = lit "12". Proof. reflexivity. Qed.
Example str_neg5 : str (-5) = lit "-5". Proof. reflexivity. Qed.
Example str_0 : str 0 = lit "0". Proof. reflexivity. Qed.
Example rjust_7 : rjust (str 7) 2 = lit " 7". Proof. reflexivity. Qed.
Example rjust_long : rjust (lit "123") 2 = lit "123". Proof. reflexivity. Qed.
Example slice_neg : slice [1; 2; 3; 4; 5; 6] 0 (-1) = [1; 2; 3; 4; 5].
Proof. reflexivity. Qed.
Example slice_over : slice [1; 2; 3; 4] 2 6 = [3; 4]. Proof. reflexivity. Qed.
Example slice_empty : slice [1; 2; 3; 4] 3 1 = []. Proof. reflexivity. Qed.
Example icon_9 : get_weather_icon 9 = Ok [0x2614%N]. Proof. reflexivity. Qed.
Example wind_7 : get_wind_speed 7 = Ok ([0x2192; 0x3000; 0xFF17]%N ++ lit "mph").
Proof. reflexivity. Qed.
Example temp_neg5 : get_temperature (-5) = Ok [0x3000; 0xFF0D; 0xFF15; 0x2103]%N.
Proof. reflexivity. Qed.
Example fw_bang : string_to_fullwidth (lit "a!") 0 = Raise (KeyError (lit "!")).
Proof. reflexivity. Qed.

(** ** The encoder *)

Lemma supportedb_spec c : supportedb c = true <-> supported c.
Proof.
  unfold supportedb, supported.
  rewrite !orb_true_iff, !andb_true_iff, !N.leb_le, !N.eqb_eq. tauto.
Qed.

Lemma supported_dec c : {supported c} + {~ supported c}.
Proof.
  destruct (supportedb c) eqn:E; [left | right]; rewrite <- supportedb_spec;
    congruence.
Qed.

(** Checking a property of the code points below a bound by running it. *)
Lemma forall_below (P : N -> bool) (n : nat) :
  forallb P (N.of_nat <$> seq 0 n) = true ->
  forall c, (c < N.of_nat n)%N -> P c = true.
Proof.
  intros H c Hc. rewrite forallb_forall in H. apply H.
  apply list_elem_of_In, list_elem_of_fmap. exists (N.to_nat c). split; [lia |].
  apply elem_of_seq. lia.
Qed.

Lemma FULLWIDTH_UNICODE_ascii c :
  (c < 128)%N ->
  FULLWIDTH_UNICODE !! c =
    if supportedb c then Some [fullwidth_char c] else None.
Proof.
  intros Hc.
  pose (P := fun c : N => bool_decide (FULLWIDTH_UNICODE !! c =
    if supportedb c then Some [fullwidth_char c] else None)).
  assert (HP : P c = true).
  { apply (forall_below P 128); [vm_compute; reflexivity | lia]. }
  unfold P in HP. by apply bool_decide_eq_true_1 in HP.
Qed.

Lemma FULLWIDTH_UNICODE_above c :
  (128 <= c)%N -> FULLWIDTH_UNICODE !! c = None.
Proof.
  intros Hc. apply not_elem_of_list_to_map_1. intros Hin.
  assert (Hall : Forall (fun k => (k < 128)%N) (ch <$> list_ascii_of_string
    " -0123456789ABCDEFGHIJKLMNOPQRSTUVWXYZabcdefghijklmnopqrstuvwxyz")).
  { assert (Hb : bool_decide (Forall (fun k => (k < 128)%N)
      (ch <$> list_ascii_of_string
        " -0123456789ABCDEFGHIJKLMNOPQRSTUVWXYZabcdefghijklmnopqrstuvwxyz"))
      = true) by (vm_compute; reflexivity).
    by apply bool_decide_eq_true_1 in Hb. }
  rewrite Forall_forall in Hall. specialize (Hall c Hin). lia.
Qed.

(** The keys of the table are exactly the supported characters. *)
Lemma FULLWIDTH_UNICODE_lookup c :
  FULLWIDTH_UNICODE !! c =
    if supportedb c then Some [fullwidth_char c] else None.
Proof.
  destruct (decide (c < 128)%N) as [Hc | Hc].
  - by apply FULLWIDTH_UNICODE_ascii.
  - rewrite FULLWIDTH_UNICODE_above by lia.
    assert (supportedb c = false) as ->; [| done].
    apply not_true_is_false. rewrite supportedb_spec. unfold supported. lia.
Qed.

Lemma getitem_supported c :
  supported c -> FULLWIDTH_UNICODE.[c] = Ok [fullwidth_char c].
Proof.
  intros Hc. apply supportedb_spec in Hc. unfold getitem.
  by rewrite FULLWIDTH_UNICODE_lookup, Hc.
Qed.

Lemma getitem_unsupported c :
  ~ supported c -> FULLWIDTH_UNICODE.[c] = Raise (KeyError [c]).
Proof.
  intros Hc. rewrite <- supportedb_spec in Hc. apply not_true_is_false in Hc.
  unfold getitem. by rewrite FULLWIDTH_UNICODE_lookup, Hc.
Qed.

(** Distinct supported characters have distinct fullwidth forms. *)
Lemma fullwidth_char_inj c1 c2 :
  supported c1 -> supported c2 -> fullwidth_char c1 = fullwidth_char c2 ->
  c1 = c2.
Proof.
  unfold supported, fullwidth_char. intros H1 H2.
  destruct (N.eqb_spec c1 32), (N.eqb_spec c2 32); lia.
Qed.

(** The equations of the result monad and of the loop. *)
Lemma bind_Ok {A B} (a : A) (f : A -> result B) : (Ok a ≫= f) = f a.
Proof. reflexivity. Qed.

Lemma bind_Raise {A B} (e : exception) (f : A -> result B) :
  (Raise e ≫= f) = Raise e.
Proof. reflexivity. Qed.

Lemma fullwidth_loop_nil acc : fullwidth_loop [] acc = Ok acc.
Proof. reflexivity. Qed.

Lemma fullwidth_loop_cons c s acc :
  fullwidth_loop (c :: s) acc =
    (glyph ← FULLWIDTH_UNICODE.[c]; fullwidth_loop s (acc ++ glyph)).
Proof. reflexivity. Qed.

Lemma fullwidth_loop_supported s acc :
  Forall supported s ->
  fullwidth_loop s acc = Ok (acc ++ (fullwidth_char <$> s)).
Proof.
  intros Hs. revert acc. induction Hs as [| c s Hc Hs IH]; intros acc.
  - by rewrite fullwidth_loop_nil, fmap_nil, app_nil_r.
  - rewrite fullwidth_loop_cons, getitem_supported, bind_Ok, IH by done.
    by rewrite fmap_cons, <- app_assoc.
Qed.

Lemma fullwidth_loop_unsupported pre c post acc :
  Forall supported pre -> ~ supported c ->
  fullwidth_loop (pre ++ c :: post) acc = Raise (KeyError [c]).
Proof.
  intros Hpre Hc. revert acc.
  induction Hpre as [| c' pre Hc' Hpre IH]; intros acc.
  - by rewrite app_nil_l, fullwidth_loop_cons, getitem_unsupported.
  - rewrite <- app_comm_cons, fullwidth_loop_cons, getitem_supported, bind_Ok
      by done.
    apply IH.
Qed.

(** The first unsupported character of a string that has one. *)
Lemma first_unsupported (s : pystr) :
  (exists c, c ∈ s /\ ~ supported c) ->
  exists pre c post,
    s = pre ++ c :: post /\ Forall supported pre /\ ~ supported c.
Proof.
  induction s as [| a s IH]; intros (c & Hin & Hc).
  - by apply elem_of_nil in Hin.
  - destruct (supported_dec a) as [Ha | Ha].
    + apply elem_of_cons in Hin as [-> | Hin]; [done |].
      destruct IH as (pre & c' & post & -> & Hpre & Hc'); [by eauto |].
      exists (a :: pre), c', post.
      split; [done |]. split; [by constructor | done].
    + exists [], a, s. split; [done |]. split; [by constructor | done].
Qed.

Lemma supported_space : supported (ch " ").
Proof. unfold supported. vm_compute. right. right. right. by left. Qed.

Lemma rjust_supported s width :
  Forall supported s -> Forall supported (rjust s width).
Proof.
  intros Hs. unfold rjust. apply Forall_app. split; [| done].
  apply Forall_replicate, supported_space.
Qed.

Lemma length_rjust s width :
  len (rjust s width) = Z.max (len s) width.
Proof.
  unfold rjust, len. rewrite length_app, length_replicate. lia.
Qed.

(** The string the loop of [string_to_fullwidth] runs over. *)
Lemma string_to_fullwidth_padded s rjustlen :
  len s <= rjustlen ->
  string_to_fullwidth s rjustlen = fullwidth_loop (rjust s rjustlen) [].
Proof.
  intros Hw. unfold string_to_fullwidth.
  destruct (Z.ltb_spec 0 rjustlen) as [Hpos | Hpos]; [done |].
  unfold rjust. replace (Z.to_nat (rjustlen - len s)) with 0%nat; [done |].
  unfold len in *. lia.
Qed.

(** C6. The encoder raises a [KeyError] on every string that holds a
    character outside the supported set (letters, digits, space, hyphen) -
    the error names such a character of the string - and it returns on every
    string made of supported characters only, whatever the width asked. *)
Theorem string_to_fullwidth_rejects_unsupported (s : pystr) (rjustlen : Z) :
  ((exists c, c ∈ s /\ ~ supported c) ->
     exists c, c ∈ s /\ ~ supported c /\
       string_to_fullwidth s rjustlen = Raise (KeyError [c]))
  /\ ((forall c, c ∈ s -> supported c) ->
        is_Ok (string_to_fullwidth s rjustlen)).
Proof.
  split.
  - intros H. apply first_unsupported in H as (pre & c & post & -> & Hpre & Hc).
    exists c. split; [set_solver |]. split; [done |].
    unfold string_to_fullwidth. destruct (0 <? rjustlen).
    + unfold rjust. rewrite app_assoc.
      apply fullwidth_loop_unsupported; [| done].
      apply Forall_app. split; [| done].
      apply Forall_replicate, supported_space.
    + by apply fullwidth_loop_unsupported.
  - intros H. apply Forall_forall in H. unfold string_to_fullwidth.
    eexists. apply fullwidth_loop_supported.
    destruct (0 <? rjustlen); [by apply rjust_supported | done].
Qed.

Lemma string_to_fullwidth_rejects_unsupported_witness :
  (exists c, c ∈ lit "a!" /\ ~ supported c /\
     string_to_fullwidth (lit "a!") 3 = Raise (KeyError [c]))
  /\ is_Ok (string_to_fullwidth (lit "MON") 0).
Proof.
  split.
  - apply (proj1 (string_to_fullwidth_rejects_unsupported (lit "a!") 3)).
    exists (ch "!"). split.
    + vm_compute. apply list_elem_of_In. simpl. tauto.
    + unfold supported. vm_compute. intuition discriminate.
  - apply (proj2 (string_to_fullwidth_rejects_unsupported (lit "MON") 0)).
    intros c Hc. apply supportedb_spec.
    apply list_elem_of_In in Hc. vm_compute in Hc.
    intuition (subst; reflexivity).
Defined.

(** C7. For a string [s] of supported characters and a width [w >= len(s)],
    the encoder returns a string of exactly [w] code points: position by
    position, the fullwidth form that the table gives for the character of
    [s] right-justified to [w]. *)
Theorem string_to_fullwidth_width (s : pystr) (w : Z) :
  (forall c, c ∈ s -> supported c) ->
  len s <= w ->
  exists out,
    string_to_fullwidth s w = Ok out /\
    len out = w /\
    Forall2 (fun c g => FULLWIDTH_UNICODE !! c = Some [g]) (rjust s w) out.
Proof.
  intros Hs Hw. apply Forall_forall in Hs.
  exists (fullwidth_char <$> rjust s w). split; [| split].
  - rewrite string_to_fullwidth_padded by done.
    by rewrite fullwidth_loop_supported by by apply rjust_supported.
  - unfold len. rewrite length_fmap. fold (len (rjust s w)).
    rewrite length_rjust. lia.
  - apply Forall2_fmap_r, Forall_Forall2_diag.
    eapply Forall_impl; [by apply rjust_supported |].
    intros c Hc. simpl. apply supportedb_spec in Hc.
    by rewrite FULLWIDTH_UNICODE_lookup, Hc.
Qed.

Lemma string_to_fullwidth_width_witness :
  exists out,
    string_to_fullwidth (lit "-5") 3 = Ok out /\
    len out = 3 /\
    Forall2 (fun c g => FULLWIDTH_UNICODE !! c = Some [g])
      (rjust (lit "-5") 3) out.
Proof.
  apply (string_to_fullwidth_width (lit "-5") 3).
  - intros c Hc. apply supportedb_spec.
    apply list_elem_of_In in Hc. vm_compute in Hc.
    intuition (subst; reflexivity).
  - vm_compute. discriminate.
Defined.

(** ** The decimal form of an integer *)

Lemma digits_supported d : Forall supported (digits d).
Proof.
  induction d; simpl; [by constructor | ..];
    (constructor; [unfold supported; lia | done]).
Qed.

Lemma str_supported n : Forall supported (str n).
Proof.
  unfold str. destruct (Z.to_int n).
  - apply digits_supported.
  - constructor; [| apply digits_supported].
    unfold supported. simpl. lia.
Qed.

(** ** Subscriptions by a name of the source *)

(** Every table of the program is subscripted by literal names only, apart
    from [FULLWIDTH_UNICODE]; those subscriptions are evaluated. *)
Ltac lookup_names :=
  repeat match goal with
  | |- context [@getitem string ?E ?C ?P ?V ?d ?k] =>
      let r := eval vm_compute in (@getitem string E C P V d k) in
      change (@getitem string E C P V d k) with r
  end.

Ltac lookup_names_in H :=
  repeat match type of H with
  | context [@getitem string ?E ?C ?P ?V ?d ?k] =>
      let r := eval vm_compute in (@getitem string E C P V d k) in
      change (@getitem string E C P V d k) with r in H
  end.

Lemma contains_nil x : contains [] x = false.
Proof. unfold contains. apply bool_decide_eq_false_2, not_elem_of_nil. Qed.

Lemma contains_cons a l x : contains (a :: l) x = (x =? a) || contains l x.
Proof.
  unfold contains. destruct (Z.eqb_spec x a) as [-> | Hne]; simpl.
  - apply bool_decide_eq_true_2. by left.
  - apply bool_decide_ext. rewrite elem_of_cons. tauto.
Qed.

(** ** The weather classifier *)

(** The chain of tests of [get_weather_icon], once the names are looked up. *)
Lemma get_weather_icon_chain (c : Z) :
  get_weather_icon c =
    if c =? 0 then Ok [0x1F319%N]
    else if c =? 1 then Ok [0x2600%N]
    else if c =? 3 then Ok [0x26C5%N]
    else if (c =? 2) || (c =? 7) || (c =? 8) then Ok [0x2601%N]
    else if (c =? 5) || (c =? 6) then Ok [0x1F301%N]
    else if (9 <=? c) && (c <? 21) then Ok [0x2614%N]
    else if (22 <=? c) && (c <? 27) then Ok [0x2744%N]
    else if (28 <=? c) && (c <? 30) then Ok [0x26C8%N]
    else Ok [0x2601%N].
Proof.
  unfold get_weather_icon. lookup_names.
  repeat (rewrite bind_Ok; cbv beta zeta).
  rewrite !contains_cons, !contains_nil, !orb_false_r.
  unfold in_range. cbn [start stop]. by rewrite !orb_assoc.
Qed.

(** The nine cases of the chain: the eight listed sets in the order of the
    tests, and the codes that are in none. *)
Lemma get_weather_icon_cases (c : Z) :
  (c = 0 /\ get_weather_icon c = Ok [0x1F319%N]) \/
  (c = 1 /\ get_weather_icon c = Ok [0x2600%N]) \/
  (c = 3 /\ get_weather_icon c = Ok [0x26C5%N]) \/
  ((c = 2 \/ c = 7 \/ c = 8) /\ get_weather_icon c = Ok [0x2601%N]) \/
  ((c = 5 \/ c = 6) /\ get_weather_icon c = Ok [0x1F301%N]) \/
  (9 <= c < 21 /\ get_weather_icon c = Ok [0x2614%N]) \/
  (22 <= c < 27 /\ get_weather_icon c = Ok [0x2744%N]) \/
  (28 <= c < 30 /\ get_weather_icon c = Ok [0x26C8%N]) \/
  ((c < 0 \/ c = 4 \/ c = 21 \/ c = 27 \/ 30 <= c) /\
     get_weather_icon c = Ok [0x2601%N]).
Proof.
  rewrite get_weather_icon_chain.
  destruct (Z.eqb_spec c 0); [by left |]. right.
  destruct (Z.eqb_spec c 1); [by left |]. right.
  destruct (Z.eqb_spec c 3); [by left |]. right.
  destruct (Z.eqb_spec c 2); [left; split; [lia | done] |].
  destruct (Z.eqb_spec c 7); [left; split; [lia | done] |].
  destruct (Z.eqb_spec c 8); [left; split; [lia | done] |]. right.
  destruct (Z.eqb_spec c 5); [left; split; [lia | done] |].
  destruct (Z.eqb_spec c 6); [left; split; [lia | done] |]. right.
  destruct (Z.leb_spec 9 c), (Z.ltb_spec c 21); simpl;
    try (left; split; [lia | done]); right;
    (destruct (Z.leb_spec 22 c), (Z.ltb_spec c 27); simpl;
     try (left; split; [lia | done]); right;
     (destruct (Z.leb_spec 28 c), (Z.ltb_spec c 30); simpl;
      try (left; split; [lia | done]); right; (split; [lia | done]))).
Qed.

(** Closing a goal about the classifier in each of its nine cases. *)
Ltac by_icon_cases c tac :=
  let Hc := fresh "Hc" in
  let Hi := fresh "Hi" in
  destruct (get_weather_icon_cases c)
    as [[Hc Hi] | [[Hc Hi] | [[Hc Hi] | [[Hc Hi] | [[Hc Hi] | [[Hc Hi]
       | [[Hc Hi] | [[Hc Hi] | [Hc Hi]]]]]]]]];
  rewrite !Hi; tac.

(** C2. The weather classifier partitions the codes as the specification
    lists them: 0 is the crescent moon, 1 the sun, 3 the sun behind a cloud,
    5 and 6 the fog, 9..20 the rain, 22..26 the snow, 28..29 the thunder, and
    the cloud is returned for 2, 7, 8 and for every code in none of the
    sets; so 21, 27, 30 and 4 give the cloud, 9 and 20 the rain, 29 the
    thunder. *)
Theorem get_weather_icon_partition (c : Z) :
  (get_weather_icon c = WEATHER_UNICODE.["CRESCENT MOON"] <-> c = 0) /\
  (get_weather_icon c = WEATHER_UNICODE.["BLACK SUN WITH RAYS"] <-> c = 1) /\
  (get_weather_icon c = WEATHER_UNICODE.["SUN BEHIND CLOUD"] <-> c = 3) /\
  (get_weather_icon c = WEATHER_UNICODE.["FOGGY"] <-> c = 5 \/ c = 6) /\
  (get_weather_icon c = WEATHER_UNICODE.["UMBRELLA WITH RAIN DROPS"]
     <-> 9 <= c < 21) /\
  (get_weather_icon c = WEATHER_UNICODE.["SNOWFLAKE"] <-> 22 <= c < 27) /\
  (get_weather_icon c = WEATHER_UNICODE.["THUNDER CLOUD AND RAIN"]
     <-> 28 <= c < 30) /\
  (get_weather_icon c = WEATHER_UNICODE.["CLOUD"]
     <-> (c = 2 \/ c = 7 \/ c = 8) \/
         ~ (c = 0 \/ c = 1 \/ c = 3 \/ (c = 5 \/ c = 6) \/ 9 <= c < 21 \/
            22 <= c < 27 \/ 28 <= c < 30)) /\
  (get_weather_icon 21 = WEATHER_UNICODE.["CLOUD"] /\
   get_weather_icon 27 = WEATHER_UNICODE.["CLOUD"] /\
   get_weather_icon 30 = WEATHER_UNICODE.["CLOUD"] /\
   get_weather_icon 4 = WEATHER_UNICODE.["CLOUD"] /\
   get_weather_icon 9 = WEATHER_UNICODE.["UMBRELLA WITH RAIN DROPS"] /\
   get_weather_icon 20 = WEATHER_UNICODE.["UMBRELLA WITH RAIN DROPS"] /\
   get_weather_icon 29 = WEATHER_UNICODE.["THUNDER CLOUD AND RAIN"]).
Proof.
  lookup_names.
  assert (Hpoints :
    get_weather_icon 21 = Ok [0x2601%N] /\
    get_weather_icon 27 = Ok [0x2601%N] /\
    get_weather_icon 30 = Ok [0x2601%N] /\
    get_weather_icon 4 = Ok [0x2601%N] /\
    get_weather_icon 9 = Ok [0x2614%N] /\
    get_weather_icon 20 = Ok [0x2614%N] /\
    get_weather_icon 29 = Ok [0x26C8%N]) by (by vm_compute).
  by_icon_cases c ltac:(repeat split; intros; try apply Hpoints; try lia;
                        try discriminate).
Qed.

Lemma get_weather_icon_partition_witness :
  get_weather_icon 12 = WEATHER_UNICODE.["UMBRELLA WITH RAIN DROPS"].
Proof.
  apply (proj2 (proj1 (proj2 (proj2 (proj2 (proj2
    (get_weather_icon_partition 12))))))).
  lia.
Defined.

(** The claim C3 as the specification states it - a code outside [0, 30] is
    rejected with an error - fails: 31 is classified, as a cloud. *)
Lemma get_weather_icon_rejects_out_of_range_fails :
  ~ (forall c : Z, c < 0 \/ 30 < c -> raises (get_weather_icon c)).
Proof.
  intros H. destruct (H 31) as [e He]; [lia |]. vm_compute in He.
  discriminate.
Qed.

(** C3, amended. For every code outside [0, 30] the weather classifier
    raises no error: it returns the cloud, the default of the codes that are
    in no listed set. *)
Theorem get_weather_icon_out_of_range (c : Z) :
  c < 0 \/ 30 < c ->
  get_weather_icon c = Ok [0x2601%N] /\
  get_weather_icon c = WEATHER_UNICODE.["CLOUD"] /\
  ~ raises (get_weather_icon c).
Proof.
  intros Hout. lookup_names.
  by_icon_cases c ltac:(first
    [ exfalso; lia
    | split; [reflexivity |]; split; [reflexivity |];
      intros [e He]; discriminate ]).
Qed.

Lemma get_weather_icon_out_of_range_witness :
  get_weather_icon 31 = Ok [0x2601%N] /\
  get_weather_icon 31 = WEATHER_UNICODE.["CLOUD"] /\
  ~ raises (get_weather_icon 31).
Proof. apply (get_weather_icon_out_of_range 31). lia. Defined.

(** C9. The weather classifier is total over the integers: for every code,
    negative and above 30 included, it raises nothing and returns one of the
    eight symbols of [WEATHER_UNICODE]; a code in no listed set gets the
    cloud. *)
Theorem get_weather_icon_total (c : Z) :
  (exists glyph name,
     get_weather_icon c = Ok glyph /\ WEATHER_UNICODE !! name = Some glyph) /\
  size WEATHER_UNICODE = 8%nat /\
  (~ (c = 0 \/ c = 1 \/ c = 3 \/ (c = 2 \/ c = 7 \/ c = 8) \/
      (c = 5 \/ c = 6) \/ 9 <= c < 21 \/ 22 <= c < 27 \/ 28 <= c < 30) ->
   get_weather_icon c = WEATHER_UNICODE.["CLOUD"]).
Proof.
  split; [| split].
  - by_icon_cases c ltac:(eexists; eexists; (split; [reflexivity |])).
    + by instantiate (1 := "CRESCENT MOON"%string); vm_compute.
    + by instantiate (1 := "BLACK SUN WITH RAYS"%string); vm_compute.
    + by instantiate (1 := "SUN BEHIND CLOUD"%string); vm_compute.
    + by instantiate (1 := "CLOUD"%string); vm_compute.
    + by instantiate (1 := "FOGGY"%string); vm_compute.
    + by instantiate (1 := "UMBRELLA WITH RAIN DROPS"%string); vm_compute.
    + by instantiate (1 := "SNOWFLAKE"%string); vm_compute.
    + by instantiate (1 := "THUNDER CLOUD AND RAIN"%string); vm_compute.
    + by instantiate (1 := "CLOUD"%string); vm_compute.
  - vm_compute. reflexivity.
  - intros Hout. lookup_names.
    by_icon_cases c ltac:(first [reflexivity | exfalso; lia]).
Qed.

Lemma get_weather_icon_total_witness :
  get_weather_icon (-7) = WEATHER_UNICODE.["CLOUD"].
Proof.
  apply (proj2 (proj2 (get_weather_icon_total (-7)))). lia.
Defined.

(** ** The wind speed *)

Lemma string_to_fullwidth_supported s rjustlen :
  Forall supported s ->
  string_to_fullwidth s rjustlen =
    Ok (fullwidth_char <$> (if 0 <? rjustlen then rjust s rjustlen else s)).
Proof.
  intros Hs. unfold string_to_fullwidth.
  rewrite fullwidth_loop_supported; [done |].
  destruct (0 <? rjustlen); [by apply rjust_supported | done].
Qed.

(** C8. For every integer speed, [get_wind_speed] returns the arrow of the
    band - one arrow iff the speed is below 10, the paired arrows iff it is
    from 10 to 19, the three arrows iff it is 20 or more - followed by the
    fullwidth form of the decimal speed right-justified to width 2, followed
    by the three ASCII letters [mph]. *)
Theorem get_wind_speed_format (speed : Z) :
  exists arrow encoded,
    get_wind_speed speed = Ok (arrow ++ encoded ++ lit "mph") /\
    (Ok arrow = ARROWS_UNICODE.["RIGHTWARDS ARROW"] <-> speed < 10) /\
    (Ok arrow = ARROWS_UNICODE.["RIGHTWARDS PAIRED ARROWS"]
       <-> 10 <= speed < 20) /\
    (Ok arrow = ARROWS_UNICODE.["THREE RIGHTWARDS ARROWS"] <-> 20 <= speed) /\
    string_to_fullwidth (str speed) 2 = Ok encoded /\
    encoded = fullwidth_char <$> rjust (str speed) 2 /\
    len encoded = Z.max (len (str speed)) 2 /\
    lit "mph" = [109; 112; 104]%N.
Proof.
  unfold get_wind_speed.
  rewrite (string_to_fullwidth_supported _ 2 (str_supported speed)).
  change (0 <? 2) with true. cbv iota.
  assert (Hlen : len (fullwidth_char <$> rjust (str speed) 2)
                 = Z.max (len (str speed)) 2).
  { unfold len at 1. rewrite length_fmap. apply length_rjust. }
  lookup_names.
  destruct (Z.ltb_spec speed 10); [| destruct (Z.ltb_spec speed 20)];
    rewrite !bind_Ok; eexists; eexists; (split; [reflexivity |]);
    repeat split; intros; try lia; try discriminate; try reflexivity;
    try exact Hlen.
Qed.

Lemma get_wind_speed_format_witness :
  exists arrow encoded,
    get_wind_speed 19 = Ok (arrow ++ encoded ++ lit "mph") /\
    (Ok arrow = ARROWS_UNICODE.["RIGHTWARDS ARROW"] <-> 19 < 10) /\
    (Ok arrow = ARROWS_UNICODE.["RIGHTWARDS PAIRED ARROWS"]
       <-> 10 <= 19 < 20) /\
    (Ok arrow = ARROWS_UNICODE.["THREE RIGHTWARDS ARROWS"] <-> 20 <= 19) /\
    string_to_fullwidth (str 19) 2 = Ok encoded /\
    encoded = fullwidth_char <$> rjust (str 19) 2 /\
    len encoded = Z.max (len (str 19)) 2 /\
    lit "mph" = [109; 112; 104]%N.
Proof. exact (get_wind_speed_format 19). Defined.

Example wind_bands :
  get_wind_speed 9 = Ok ([0x2192; 0x3000; 0xFF19]%N ++ lit "mph") /\
  get_wind_speed 10 = Ok ([0x21C9; 0xFF11; 0xFF10]%N ++ lit "mph") /\
  get_wind_speed 19 = Ok ([0x21C9; 0xFF11; 0xFF19]%N ++ lit "mph") /\
  get_wind_speed 20 = Ok ([0x21F6; 0xFF12; 0xFF10]%N ++ lit "mph") /\
  get_wind_speed 120 = Ok ([0x21F6; 0xFF11; 0xFF12; 0xFF10]%N ++ lit "mph").
Proof. vm_compute. repeat split. Qed.

(** ** The nice-day classifier *)

Lemma nice_weather_spec f :
  nice_weather [0; 1; 2; 3; 7] f = true <-> nice f.
Proof.
  unfold nice_weather, nice, contains.
  rewrite !andb_true_iff, bool_decide_eq_true, !Z.leb_le. tauto.
Qed.

Lemma nice_day_loop_nil types i :
  nice_day_loop types i [] = Ok [0x1F603%N].
Proof. reflexivity. Qed.

Lemma nice_day_loop_cons types i f rest :
  nice_day_loop types i (f :: rest) =
    if nice_weather types f then nice_day_loop types (i + 1) rest
    else if i <=? 1 then Ok [0x1F62D%N] else Ok [0x1F610%N].
Proof.
  cbn [nice_day_loop]. destruct (nice_weather types f); cbn [negb]; [done |].
  by lookup_names.
Qed.

(** The subscriptions of [calc_nice_day_emoticon] evaluated: the loop runs
    over the reversed slice. *)
Lemma calc_nice_day_emoticon_unfold index forecasts :
  calc_nice_day_emoticon index forecasts =
    nice_day_loop [0; 1; 2; 3; 7] 0
      (reverse (slice forecasts (Z.max (index - 3) 0) (index + 1))).
Proof.
  unfold calc_nice_day_emoticon. lookup_names.
  by repeat (rewrite bind_Ok; cbv beta zeta).
Qed.

Lemma nice_day_loop_all_nice i l :
  Forall nice l -> nice_day_loop [0; 1; 2; 3; 7] i l = Ok [0x1F603%N].
Proof.
  intros Hl. revert i. induction Hl as [| f l Hf Hl IH]; intros i.
  - apply nice_day_loop_nil.
  - apply nice_weather_spec in Hf. by rewrite nice_day_loop_cons, Hf.
Qed.

Lemma nice_day_loop_first_bad i good bad rest :
  Forall nice good -> ~ nice bad ->
  nice_day_loop [0; 1; 2; 3; 7] i (good ++ bad :: rest) =
    if i + len good <=? 1 then Ok [0x1F62D%N] else Ok [0x1F610%N].
Proof.
  intros Hgood Hbad. revert i.
  induction Hgood as [| f good Hf Hgood IH]; intros i.
  - rewrite app_nil_l, nice_day_loop_cons.
    rewrite <- nice_weather_spec in Hbad. apply not_true_is_false in Hbad.
    rewrite Hbad. unfold len. simpl. by rewrite Z.add_0_r.
  - apply nice_weather_spec in Hf.
    rewrite <- app_comm_cons, nice_day_loop_cons, Hf, IH.
    unfold len. rewrite length_cons.
    by replace (i + 1 + Z.of_nat (length good))
      with (i + Z.of_nat (S (length good))) by lia.
Qed.

(** The three results of the loop. *)
Lemma nice_day_loop_results types i l :
  nice_day_loop types i l = Ok [0x1F603%N] \/
  nice_day_loop types i l = Ok [0x1F610%N] \/
  nice_day_loop types i l = Ok [0x1F62D%N].
Proof.
  revert i. induction l as [| f l IH]; intros i.
  - left. apply nice_day_loop_nil.
  - rewrite nice_day_loop_cons. destruct (nice_weather types f); [apply IH |].
    destruct (i <=? 1); auto.
Qed.

(** The records at the positions [lo], [lo + 1], ... are a prefix of the
    list from [lo] on. *)
Lemma omap_lookup_seqZ {A} (l : list A) (lo cnt : Z) :
  0 <= lo ->
  omap (fun k => l !! Z.to_nat k) (seqZ lo cnt)
  = take (Z.to_nat cnt) (drop (Z.to_nat lo) l).
Proof.
  remember (Z.to_nat cnt) as n eqn:Hn. revert lo cnt Hn.
  induction n as [| n IH]; intros lo cnt Hn Hlo.
  - rewrite seqZ_nil by lia. by rewrite take_0.
  - rewrite seqZ_cons by lia. cbn [omap list_omap].
    destruct (l !! Z.to_nat lo) as [x |] eqn:Hx.
    + rewrite (IH (Z.succ lo) (Z.pred cnt)) by lia.
      rewrite (drop_S l x (Z.to_nat lo) Hx). cbn [take].
      by replace (Z.to_nat (Z.succ lo)) with (S (Z.to_nat lo)) by lia.
    + rewrite (IH (Z.succ lo) (Z.pred cnt)) by lia.
      apply lookup_ge_None in Hx.
      by rewrite !drop_ge, !take_nil by lia.
Qed.

(** For an index that is not negative, the slice that the code takes is the
    window of the specification. *)
Lemma slice_window index forecasts :
  0 <= index ->
  slice forecasts (Z.max (index - 3) 0) (index + 1) = window index forecasts.
Proof.
  intros Hindex. unfold window. rewrite omap_lookup_seqZ by lia.
  unfold slice, clamp, len.
  set (n := length forecasts). set (lo := Z.max (index - 3) 0).
  destruct (Z.ltb_spec lo 0), (Z.ltb_spec (index + 1) 0); try lia.
  destruct (decide (Z.of_nat n <= lo)) as [Hge | Hlt].
  - rewrite !drop_ge, !take_nil by (subst n; lia). done.
  - replace (Z.to_nat (Z.min lo (Z.of_nat n))) with (Z.to_nat lo) by lia.
    destruct (decide (index + 1 <= Z.of_nat n)) as [Hin | Hout].
    + f_equal. lia.
    + rewrite !take_ge; [done | |];
        rewrite length_drop; subst n; lia.
Qed.

Lemma length_window index forecasts :
  0 <= index -> (length (window index forecasts) <= 4)%nat.
Proof.
  intros Hindex. unfold window. rewrite omap_lookup_seqZ by lia.
  rewrite length_take. lia.
Qed.

(** C1. For a position [index >= 0] the classifier runs over the window
    [forecasts[max(index-3, 0) .. index]], at most four records, from the
    most recent one back, counting from 0.  When every record of the window
    is nice the result is the happy face.  Otherwise, with [i] the position
    of the first record that is not nice: the result is the sad face of the
    program, LOUDLY CRYING FACE, when [i <= 1], and the neutral face when
    [i] is 2 or 3 (no other position exists).  At index 0 of a sequence that
    is not empty, the window is the first record alone, and that record
    failing gives the sad face. *)
Theorem nice_day_window_rule (index : Z) (forecasts : list forecast) :
  0 <= index ->
  let recent := reverse (window index forecasts) in
  (length recent <= 4)%nat /\
  (Forall nice recent ->
     calc_nice_day_emoticon index forecasts
     = EMOTICONS_UNICODE.["SMILEY FACE WITH OPEN MOUTH"]) /\
  (forall good bad rest,
     recent = good ++ bad :: rest -> Forall nice good -> ~ nice bad ->
     let i := len good in
     (i <= 1 ->
        calc_nice_day_emoticon index forecasts
        = EMOTICONS_UNICODE.["LOUDLY CRYING FACE"]) /\
     (2 <= i ->
        i <= 3 /\
        calc_nice_day_emoticon index forecasts
        = EMOTICONS_UNICODE.["NEUTRAL FACE"])) /\
  (index = 0 -> forall f rest, forecasts = f :: rest ->
     recent = [f] /\
     (~ nice f ->
        calc_nice_day_emoticon index forecasts
        = EMOTICONS_UNICODE.["LOUDLY CRYING FACE"])).
Proof.
  intros Hindex recent.
  assert (Hcalc : calc_nice_day_emoticon index forecasts
                  = nice_day_loop [0; 1; 2; 3; 7] 0 recent).
  { by rewrite calc_nice_day_emoticon_unfold, slice_window. }
  assert (Hlen : (length recent <= 4)%nat).
  { subst recent. rewrite length_reverse. by apply length_window. }
  rewrite Hcalc. lookup_names. split; [exact Hlen |]. split; [| split].
  - apply nice_day_loop_all_nice.
  - intros good bad rest Hrecent Hgood Hbad i. subst i.
    rewrite Hrecent, (nice_day_loop_first_bad 0 good bad rest Hgood Hbad).
    rewrite Hrecent, length_app, length_cons in Hlen. unfold len.
    split; intros Hi.
    + by destruct (Z.leb_spec (0 + Z.of_nat (length good)) 1); [| lia].
    + split; [lia |].
      by destruct (Z.leb_spec (0 + Z.of_nat (length good)) 1); [lia |].
  - intros -> f rest ->.
    assert (Hone : recent = [f]) by (by vm_compute).
    split; [exact Hone |]. intros Hbad. rewrite Hone.
    exact (nice_day_loop_first_bad 0 [] f [] (Forall_nil_2 _) Hbad).
Qed.

Lemma nice_sample_sunny : nice (sample 1 5 0).
Proof. by apply nice_weather_spec. Qed.

Lemma not_nice_sample_rain : ~ nice (sample 12 25 80).
Proof. rewrite <- nice_weather_spec. by vm_compute. Qed.

Lemma nice_day_window_rule_witness :
  calc_nice_day_emoticon 3
    [sample 1 5 0; sample 12 25 80; sample 1 5 0; sample 1 5 0]
  = EMOTICONS_UNICODE.["NEUTRAL FACE"].
Proof.
  destruct (nice_day_window_rule 3
    [sample 1 5 0; sample 12 25 80; sample 1 5 0; sample 1 5 0])
    as (_ & _ & H & _); [lia |].
  apply (H [sample 1 5 0; sample 1 5 0] (sample 12 25 80) [sample 1 5 0]).
  - reflexivity.
  - repeat constructor; apply nice_sample_sunny.
  - apply not_nice_sample_rain.
  - vm_compute. discriminate.
Defined.

(** The recency rule on windows of four records: only the most recent one
    bad, only the third most recent one bad, none bad. *)
Example nice_day_recency :
  calc_nice_day_emoticon 3
    [sample 1 5 0; sample 1 5 0; sample 1 5 0; sample 12 25 80]
  = EMOTICONS_UNICODE.["LOUDLY CRYING FACE"] /\
  calc_nice_day_emoticon 3
    [sample 1 5 0; sample 12 25 80; sample 1 5 0; sample 1 5 0]
  = EMOTICONS_UNICODE.["NEUTRAL FACE"] /\
  calc_nice_day_emoticon 3
    [sample 1 5 0; sample 1 5 0; sample 1 5 0; sample 1 5 0]
  = EMOTICONS_UNICODE.["SMILEY FACE WITH OPEN MOUTH"].
Proof. vm_compute. repeat split. Qed.

(** Below zero the slice of the code is no longer the window: the upper
    bound [index + 1] counts from the end of the list.  At index -2 of six
    records the loop runs over the first five, and a bad record at its
    position 4 gives the neutral face, while the window is empty. *)
Example calc_nice_day_emoticon_negative_index :
  let forecasts :=
    [sample 12 25 80; sample 1 5 0; sample 1 5 0; sample 1 5 0; sample 1 5 0;
     sample 1 5 0] in
  window (-2) forecasts = [] /\
  slice forecasts (Z.max (-2 - 3) 0) (-2 + 1) = take 5 forecasts /\
  calc_nice_day_emoticon (-2) forecasts = EMOTICONS_UNICODE.["NEUTRAL FACE"].
Proof. vm_compute. repeat split. Qed.

(** The claim C4 as the specification states it - the fourth and most
    negative glyph of the table, LOUDLY CRYING FACE, is never returned -
    fails: one bad record at index 0 returns it. *)
Lemma loudly_crying_face_unreachable_fails :
  ~ (forall index forecasts,
       calc_nice_day_emoticon index forecasts
       <> EMOTICONS_UNICODE.["LOUDLY CRYING FACE"]).
Proof.
  intros H. apply (H 0 [sample 12 25 80]). vm_compute. reflexivity.
Qed.

(** C4, amended. For every index and sequence the classifier returns one of
    three of the four glyphs of [EMOTICONS_UNICODE]: SMILEY FACE WITH OPEN
    MOUTH, NEUTRAL FACE and LOUDLY CRYING FACE, each of them returned on some
    input.  The glyph that no input returns is the third one, DISAPPOINTED
    FACE. *)
Theorem calc_nice_day_emoticon_glyphs (index : Z) (forecasts : list forecast) :
  (calc_nice_day_emoticon index forecasts
     = EMOTICONS_UNICODE.["SMILEY FACE WITH OPEN MOUTH"] \/
   calc_nice_day_emoticon index forecasts
     = EMOTICONS_UNICODE.["NEUTRAL FACE"] \/
   calc_nice_day_emoticon index forecasts
     = EMOTICONS_UNICODE.["LOUDLY CRYING FACE"]) /\
  calc_nice_day_emoticon index forecasts
    <> EMOTICONS_UNICODE.["DISAPPOINTED FACE"] /\
  size EMOTICONS_UNICODE = 4%nat /\
  (exists i fs, calc_nice_day_emoticon i fs
     = EMOTICONS_UNICODE.["SMILEY FACE WITH OPEN MOUTH"]) /\
  (exists i fs, calc_nice_day_emoticon i fs
     = EMOTICONS_UNICODE.["NEUTRAL FACE"]) /\
  (exists i fs, calc_nice_day_emoticon i fs
     = EMOTICONS_UNICODE.["LOUDLY CRYING FACE"]).
Proof.
  rewrite calc_nice_day_emoticon_unfold. lookup_names.
  split; [apply nice_day_loop_results |]. split; [| split].
  - destruct (nice_day_loop_results [0; 1; 2; 3; 7] 0
      (reverse (slice forecasts (Z.max (index - 3) 0) (index + 1))))
      as [-> | [-> | ->]]; discriminate.
  - vm_compute. reflexivity.
  - split; [| split].
    + exists 0, []. vm_compute. reflexivity.
    + exists 3, [sample 1 5 0; sample 12 25 80; sample 1 5 0; sample 1 5 0].
      vm_compute. reflexivity.
    + exists 0, [sample 12 25 80]. vm_compute. reflexivity.
Qed.

Lemma omap_ext_in {A B} (f g : A -> option B) (l : list A) :
  (forall x, x ∈ l -> f x = g x) -> omap f l = omap g l.
Proof.
  induction l as [| a l IH]; intros Hfg; [done |].
  cbn [omap list_omap]. rewrite (Hfg a) by (by left).
  rewrite IH; [done |]. intros x Hx. apply Hfg. by right.
Qed.

(** C10. The result of the classifier depends on the window only: two
    sequences with the same records at the positions [max(index-3, 0)]
    through [index] get the same glyph.  (The embedded function has no
    write to the sequence: it returns a glyph and nothing else.) *)
Theorem nice_day_depends_on_window_only
    (index : Z) (forecasts1 forecasts2 : list forecast) :
  0 <= index ->
  (forall k, Z.max (index - 3) 0 <= k <= index ->
     forecasts1 !! Z.to_nat k = forecasts2 !! Z.to_nat k) ->
  calc_nice_day_emoticon index forecasts1
  = calc_nice_day_emoticon index forecasts2.
Proof.
  intros Hindex Hagree.
  rewrite !calc_nice_day_emoticon_unfold, !slice_window by done.
  f_equal. f_equal. unfold window. apply omap_ext_in.
  intros k Hk. apply elem_of_seqZ in Hk. apply Hagree. lia.
Qed.

Lemma nice_day_depends_on_window_only_witness :
  calc_nice_day_emoticon 4
    [sample 12 25 80; sample 1 5 0; sample 1 5 0; sample 1 5 0; sample 1 5 0;
     sample 12 25 80]
  = calc_nice_day_emoticon 4
    [sample 1 5 0; sample 1 5 0; sample 1 5 0; sample 1 5 0; sample 1 5 0].
Proof.
  apply nice_day_depends_on_window_only; [lia |].
  intros k Hk.
  assert (Hcases : k = 1 \/ k = 2 \/ k = 3 \/ k = 4) by lia.
  destruct Hcases as [-> | [-> | [-> | ->]]]; reflexivity.
Defined.

(** ** The body of the note *)

(** One turn of the loop of [main]: the pieces appended one by one are the
    line of the record, and an exception in a piece ends the loop. *)
Lemma main_loop_cons forecasts i f todo body :
  main_loop forecasts ((i, f) :: todo) body =
    if period_4_or_5 f
    then line ← compose_line i forecasts f;
         main_loop forecasts todo (add_line body line)
    else main_loop forecasts todo body.
Proof.
  cbn [main_loop]. destruct (period_4_or_5 f); [| reflexivity].
  unfold compose_line, add_line.
  destruct (string_to_fullwidth _ _) as [day | e]; [| reflexivity].
  destruct (get_am_pm _) as [am_pm | e]; [| reflexivity].
  destruct (calc_nice_day_emoticon _ _) as [emoticon | e]; [| reflexivity].
  destruct (get_weather_icon _) as [icon | e]; [| reflexivity].
  destruct (get_temperature _) as [temperature | e]; [| reflexivity].
  destruct (get_wind_speed _) as [wind | e]; [| reflexivity].
  rewrite !bind_Ok. cbv zeta. by rewrite !app_assoc.
Qed.

Lemma fullwidth_above_newline s : Forall above_newline (fullwidth_char <$> s).
Proof.
  apply Forall_fmap, Forall_true. intros c. unfold above_newline, fullwidth_char.
  simpl. destruct (c =? 32)%N; lia.
Qed.

Lemma supportedb_Forall s : forallb supportedb s = true -> Forall supported s.
Proof.
  intros H. apply Forall_forall. intros c Hc. apply supportedb_spec.
  rewrite forallb_forall in H. by apply H, list_elem_of_In.
Qed.

(** The abbreviated day names of the C locale are written with letters. *)
Lemma strftime_a_supported d : Forall supported (upper (strftime_a d)).
Proof.
  unfold strftime_a. generalize (weekday d). intros z.
  repeat case_match; by apply supportedb_Forall.
Qed.

Ltac glyph_ok :=
  eexists; split; [reflexivity |];
  split; [discriminate | repeat constructor; unfold above_newline; lia].

Lemma get_am_pm_total t :
  exists g, get_am_pm t = Ok g /\ g <> [] /\ Forall above_newline g.
Proof. unfold get_am_pm. lookup_names. destruct (hour t <? 12); glyph_ok. Qed.

Lemma calc_nice_day_emoticon_total i forecasts :
  exists g, calc_nice_day_emoticon i forecasts = Ok g /\ g <> [] /\
            Forall above_newline g.
Proof.
  rewrite calc_nice_day_emoticon_unfold.
  destruct (nice_day_loop_results [0; 1; 2; 3; 7] 0
    (reverse (slice forecasts (Z.max (i - 3) 0) (i + 1))))
    as [-> | [-> | ->]]; glyph_ok.
Qed.

Lemma get_weather_icon_glyph c :
  exists g, get_weather_icon c = Ok g /\ g <> [] /\ Forall above_newline g.
Proof. by_icon_cases c glyph_ok. Qed.

Lemma get_temperature_total t :
  exists g, get_temperature t = Ok g /\ g <> [] /\ Forall above_newline g.
Proof.
  unfold get_temperature.
  rewrite (string_to_fullwidth_supported _ 3 (str_supported t)), bind_Ok.
  eexists. split; [reflexivity |]. split.
  - intros H. apply app_eq_nil in H as [_ H]. discriminate.
  - apply Forall_app. split; [apply fullwidth_above_newline |].
    repeat constructor.
Qed.

Lemma get_wind_speed_total speed :
  exists g, get_wind_speed speed = Ok g /\ g <> [] /\ Forall above_newline g.
Proof.
  unfold get_wind_speed.
  rewrite (string_to_fullwidth_supported _ 2 (str_supported speed)).
  lookup_names.
  destruct (speed <? 10); [| destruct (speed <? 20)]; rewrite !bind_Ok;
    (eexists; split; [reflexivity |]; split; [discriminate |]);
    (apply Forall_app; split;
       [repeat constructor; unfold above_newline; lia |];
     apply Forall_app; split; [apply fullwidth_above_newline |];
     repeat constructor; unfold above_newline; simpl; lia).
Qed.

(** The line of a record is always composed: nothing raises; it is not empty
    and holds no newline. *)
Lemma compose_line_total i forecasts f :
  exists line,
    compose_line i forecasts f = Ok line /\ line <> [] /\
    Forall above_newline line.
Proof.
  unfold compose_line.
  rewrite (string_to_fullwidth_supported _ 0 (strftime_a_supported (from f))).
  destruct (get_am_pm_total (time_of (from f))) as (am_pm & -> & Ham & Ham').
  destruct (calc_nice_day_emoticon_total i forecasts) as (em & -> & _ & Hem).
  destruct (get_weather_icon_glyph (weather_type f)) as (icon & -> & _ & Hic).
  destruct (get_temperature_total (temperature_c f)) as (te & -> & _ & Hte).
  destruct (get_wind_speed_total (wind_speed_mph f)) as (wi & -> & _ & Hwi).
  rewrite !bind_Ok. eexists. split; [reflexivity |]. split.
  - intros H. apply app_eq_nil in H as [_ H]. apply app_eq_nil in H as [H _].
    by apply Ham.
  - repeat (apply Forall_app; split); try assumption.
    apply fullwidth_above_newline.
Qed.

Lemma join_lines_cons line lines :
  lines <> [] -> join_lines (line :: lines) = line ++ newline ++ join_lines lines.
Proof. by destruct lines. Qed.

Lemma join_lines_nonempty line lines :
  line <> [] -> join_lines (line :: lines) <> [].
Proof.
  intros Hline. destruct lines as [| x lines]; [done |].
  rewrite join_lines_cons by done. intros H.
  by apply app_eq_nil in H as [? _].
Qed.

(** Once the body is not empty, the turns of the loop join the lines. *)
Lemma fold_add_line body lines :
  body <> [] -> fold_left add_line lines body = join_lines (body :: lines).
Proof.
  revert body. induction lines as [| line lines IH]; intros body Hbody.
  - reflexivity.
  - cbn [fold_left]. unfold add_line at 2.
    rewrite bool_decide_eq_true_2 by done.
    rewrite IH.
    + destruct lines as [| x lines]; cbn [join_lines];
        by rewrite <- ?app_assoc.
    + intros H. apply app_eq_nil in H as [H _].
      by apply app_eq_nil in H as [? _].
Qed.

Lemma fold_add_line_nil lines :
  Forall (fun line => line <> []) lines ->
  fold_left add_line lines [] = join_lines lines.
Proof.
  intros Hlines. destruct Hlines as [| line lines Hline Hlines]; [done |].
  cbn [fold_left]. unfold add_line at 2.
  rewrite bool_decide_eq_false_2 by (by intros H; apply H).
  by apply fold_add_line.
Qed.

(** The loop of [main] never raises: it adds the lines of the selected
    records of [todo] to the body, in order. *)
Lemma main_loop_lines forecasts todo body :
  exists lines,
    Forall2 (fun p line => compose_line p.1 forecasts p.2 = Ok line)
      (filter (fun p => period_4_or_5 p.2 = true) todo) lines /\
    Forall (fun line => line <> [] /\ Forall above_newline line) lines /\
    main_loop forecasts todo body = Ok (fold_left add_line lines body).
Proof.
  revert body. induction todo as [| [i f] todo IH]; intros body.
  - exists []. by repeat split; constructor.
  - rewrite main_loop_cons, filter_cons. cbn [snd].
    destruct (period_4_or_5 f) eqn:Hsel.
    + destruct (compose_line_total i forecasts f) as (line & Hline & Hne & Hnl).
      destruct (IH (add_line body line)) as (lines & Hall & Hlines & Hloop).
      exists (line :: lines). rewrite Hline, bind_Ok.
      destruct (decide (true = true)); [| done].
      split; [by constructor |]. split; [by constructor |]. exact Hloop.
    + destruct (IH body) as (lines & Hall & Hlines & Hloop).
      exists lines. by destruct (decide (false = true)).
Qed.

Lemma last_join_lines lines :
  Forall (fun line => line <> [] /\ Forall above_newline line) lines ->
  last (join_lines lines) <> Some 10%N.
Proof.
  induction 1 as [| line lines [Hne Hnl] Hlines IH]; [done |].
  destruct lines as [| x lines].
  - cbn [join_lines]. intros Hlast. apply last_Some_elem_of in Hlast.
    rewrite Forall_forall in Hnl. specialize (Hnl _ Hlast).
    unfold above_newline in Hnl. lia.
  - rewrite join_lines_cons by done. rewrite !last_app.
    destruct (last (join_lines (x :: lines))) as [c |] eqn:Hc; [done |].
    apply last_None in Hc. inversion Hlines as [| ? ? [Hx _] _]; subst.
    by apply join_lines_nonempty in Hc.
Qed.

Lemma elem_of_enumerate_from {A} (l : list A) (start i : Z) (x : A) :
  (i, x) ∈ enumerate_from start l <->
  start <= i /\ l !! Z.to_nat (i - start) = Some x.
Proof.
  revert start. induction l as [| a l IH]; intros start; cbn [enumerate_from].
  - rewrite elem_of_nil. split; [done | by intros [_ ?]].
  - rewrite elem_of_cons, IH. split.
    + intros [[= -> ->] | [Hle Hx]].
      * split; [lia |]. by rewrite Z.sub_diag.
      * split; [lia |].
        replace (Z.to_nat (i - start)) with (S (Z.to_nat (i - (start + 1))))
          by lia.
        exact Hx.
    + intros [Hle Hx]. destruct (decide (i = start)) as [-> | Hne].
      * left. rewrite Z.sub_diag in Hx. cbn in Hx. by injection Hx as ->.
      * right. split; [lia |].
        replace (Z.to_nat (i - start)) with (S (Z.to_nat (i - (start + 1))))
          in Hx by lia.
        exact Hx.
Qed.

Lemma enumerate_from_fst {A} (l : list A) start :
  (enumerate_from start l).*1 = seqZ start (len l).
Proof.
  revert start. induction l as [| a l IH]; intros start; [done |].
  cbn [enumerate_from fmap list_fmap fst]. rewrite IH. unfold len.
  rewrite (seqZ_cons start) by (cbn [length]; lia).
  f_equal. f_equal; cbn [length]; lia.
Qed.

Lemma enumerate_from_snd {A} (l : list A) start :
  (enumerate_from start l).*2 = l.
Proof.
  revert start. induction l as [| a l IH]; intros start; [done |].
  cbn [enumerate_from fmap list_fmap snd]. by rewrite IH.
Qed.

Lemma period_4_or_5_spec f :
  period_4_or_5 f = true <-> (period f == 4 \/ period f == 5)%Q.
Proof.
  unfold period_4_or_5. by rewrite orb_true_iff, !Qeq_bool_iff.
Qed.

(** C5. The loop of [main] goes through the forecasts in their order and
    takes exactly the records whose period is 4 or 5; it raises nothing; the
    body it builds is the lines of these records, one line each and in the
    order of the sequence, joined by one newline, with no newline inside a
    line and none at the end.  When no record is selected - the empty
    sequence included - the body is the empty string. *)
Theorem main_body_lines (forecasts : list forecast) :
  (forall i f, (i, f) ∈ selected forecasts <->
     0 <= i /\ forecasts !! Z.to_nat i = Some f /\
     (period f == 4 \/ period f == 5)%Q) /\
  selected forecasts `sublist_of` enumerate forecasts /\
  (enumerate forecasts).*1 = seqZ 0 (len forecasts) /\
  (enumerate forecasts).*2 = forecasts /\
  (exists lines,
     Forall2 (fun p line => compose_line p.1 forecasts p.2 = Ok line)
       (selected forecasts) lines /\
     main_body forecasts = Ok (join_lines lines) /\
     Forall (fun line => line <> [] /\ 10%N ∉ line) lines /\
     last (join_lines lines) <> Some 10%N) /\
  (selected forecasts = [] -> main_body forecasts = Ok []) /\
  main_body [] = Ok [].
Proof.
  split; [| split; [| split; [| split; [| split; [| split]]]]].
  - intros i f. unfold selected. rewrite list_elem_of_filter. cbn [snd].
    unfold enumerate. rewrite elem_of_enumerate_from, period_4_or_5_spec.
    rewrite Z.sub_0_r. tauto.
  - apply sublist_filter.
  - apply enumerate_from_fst.
  - apply enumerate_from_snd.
  - destruct (main_loop_lines forecasts (enumerate forecasts) [])
      as (lines & Hall & Hlines & Hloop).
    exists lines. split; [exact Hall |]. split; [| split].
    + unfold main_body. rewrite Hloop. f_equal. apply fold_add_line_nil.
      eapply Forall_impl; [exact Hlines |]. by intros line [? _].
    + eapply Forall_impl; [exact Hlines |]. intros line [Hne Hnl].
      split; [exact Hne |]. intros Hin. rewrite Forall_forall in Hnl.
      specialize (Hnl _ Hin). unfold above_newline in Hnl. lia.
    + by apply last_join_lines.
  - intros Hnone.
    destruct (main_loop_lines forecasts (enumerate forecasts) [])
      as (lines & Hall & _ & Hloop).
    unfold selected in Hnone. rewrite Hnone in Hall.
    apply Forall2_nil_inv_l in Hall as ->. exact Hloop.
  - reflexivity.
Qed.

Lemma main_body_lines_witness :
  main_body [at_period 1 (sample 1 5 0); at_period 2 (sample 12 25 80)]
  = Ok [].
Proof.
  destruct (main_body_lines
    [at_period 1 (sample 1 5 0); at_period 2 (sample 12 25 80)])
    as (_ & _ & _ & _ & _ & H & _).
  apply H. vm_compute. reflexivity.
Defined.

(** One day of eight periods: the lines of the periods 4 and 5. *)
Example main_body_one_day :
  main_body ((fun p => at_period p (sample 1 5 0)) <$> [1; 2; 3; 4; 5; 6; 7; 8])
  = Ok (join_lines
      [ [0xFF2D; 0xFF2F; 0xFF2E; 0x33C2; 0x1F603; 0x2600;
         0x3000; 0xFF11; 0xFF10; 0x2103; 0x2192; 0x3000; 0xFF15]%N
        ++ lit "mph";
        [0xFF2D; 0xFF2F; 0xFF2E; 0x33C2; 0x1F603; 0x2600;
         0x3000; 0xFF11; 0xFF10; 0x2103; 0x2192; 0x3000; 0xFF15]%N
        ++ lit "mph" ]).
Proof. vm_compute. reflexivity. Qed.

(** * Further properties of the program *)

(** ** More on the encoder *)

Lemma fullwidth_loop_Ok_inv s acc out :
  fullwidth_loop s acc = Ok out -> Forall supported s.
Proof.
  revert acc. induction s as [| c s IH]; intros acc H; [by constructor |].
  rewrite fullwidth_loop_cons in H. destruct (supported_dec c) as [Hc | Hc].
  - rewrite getitem_supported, bind_Ok in H by done.
    constructor; [done | by eapply IH].
  - rewrite getitem_unsupported, bind_Raise in H by done. discriminate.
Qed.

Lemma fmap_fullwidth_char_inj l1 l2 :
  Forall supported l1 -> Forall supported l2 ->
  fullwidth_char <$> l1 = fullwidth_char <$> l2 -> l1 = l2.
Proof.
  intros H1. revert l2. induction H1 as [| c1 l1 Hc1 H1 IH]; intros l2 H2 Heq.
  - by destruct l2.
  - destruct H2 as [| c2 l2 Hc2 H2]; [done |].
    rewrite !fmap_cons in Heq. injection Heq as Hc Hl.
    f_equal; [by apply fullwidth_char_inj | by apply IH].
Qed.

(** X1. The encoder never truncates and ignores a width that is not
    positive: on a string of supported characters the output has
    [max(len(s), width)] code points, for every integer width. *)
Theorem string_to_fullwidth_length (s : pystr) (w : Z) :
  (forall c, c ∈ s -> supported c) ->
  exists out,
    string_to_fullwidth s w = Ok out /\ len out = Z.max (len s) w.
Proof.
  intros Hs. apply Forall_forall in Hs.
  rewrite (string_to_fullwidth_supported s w Hs). eexists.
  split; [reflexivity |]. unfold len at 1. rewrite length_fmap.
  destruct (Z.ltb_spec 0 w).
  - apply length_rjust.
  - unfold len. lia.
Qed.

Lemma string_to_fullwidth_length_witness :
  exists out,
    string_to_fullwidth (lit "123") 2 = Ok out /\
    len out = Z.max (len (lit "123")) 2.
Proof.
  apply (string_to_fullwidth_length (lit "123") 2).
  intros c Hc. apply supportedb_spec.
  apply list_elem_of_In in Hc. vm_compute in Hc.
  intuition (subst; reflexivity).
Defined.

(** X2. The error of the encoder names the first character that is not in
    the table: the characters before it are looked up and no output is
    returned, whatever the width. *)
Theorem string_to_fullwidth_first_error (pre : pystr) (c : char)
    (post : pystr) (w : Z) :
  (forall x, x ∈ pre -> supported x) -> ~ supported c ->
  string_to_fullwidth (pre ++ c :: post) w = Raise (KeyError [c]).
Proof.
  intros Hpre Hc. apply Forall_forall in Hpre. unfold string_to_fullwidth.
  destruct (0 <? w).
  - unfold rjust. rewrite app_assoc.
    apply fullwidth_loop_unsupported; [| done].
    apply Forall_app. split; [| done].
    apply Forall_replicate, supported_space.
  - by apply fullwidth_loop_unsupported.
Qed.

Lemma string_to_fullwidth_first_error_witness :
  string_to_fullwidth (lit "12" ++ ch "." :: lit "5!") 3
  = Raise (KeyError [ch "."]).
Proof.
  apply string_to_fullwidth_first_error.
  - intros x Hx. apply supportedb_spec.
    apply list_elem_of_In in Hx. vm_compute in Hx.
    intuition (subst; reflexivity).
  - rewrite <- supportedb_spec. vm_compute. discriminate.
Defined.

(** X3. The encoding can be read back: two strings that are encoded to the
    same output with the same width are equal, when no padding is asked
    ([width <= 0]) or when they have the same length. *)
Theorem string_to_fullwidth_injective (s t out : pystr) (w : Z) :
  string_to_fullwidth s w = Ok out ->
  string_to_fullwidth t w = Ok out ->
  w <= 0 \/ len s = len t ->
  s = t.
Proof.
  unfold string_to_fullwidth. intros Hs Ht Hw.
  pose proof (fullwidth_loop_Ok_inv _ _ _ Hs) as Hs'.
  pose proof (fullwidth_loop_Ok_inv _ _ _ Ht) as Ht'.
  rewrite (fullwidth_loop_supported _ _ Hs') in Hs.
  rewrite (fullwidth_loop_supported _ _ Ht') in Ht.
  rewrite !app_nil_l in Hs, Ht. injection Hs as Hs. injection Ht as Ht.
  rewrite <- Ht in Hs. apply fmap_fullwidth_char_inj in Hs; [| done ..].
  destruct (Z.ltb_spec 0 w) as [Hpos | Hneg]; [| done].
  destruct Hw as [Hw | Hw]; [lia |].
  unfold rjust in Hs. rewrite Hw in Hs. by apply app_inv_head in Hs.
Qed.

Lemma string_to_fullwidth_injective_witness :
  lit "MON" = upper (lit "Mon").
Proof.
  apply (string_to_fullwidth_injective (lit "MON") (upper (lit "Mon"))
           [0xFF2D; 0xFF2F; 0xFF2E]%N 0); [reflexivity | reflexivity | lia].
Defined.

Lemma fullwidth_loop_acc s acc :
  fullwidth_loop s acc = (out ← fullwidth_loop s []; Ok (acc ++ out)).
Proof.
  revert acc. induction s as [| c s IH]; intros acc.
  - by rewrite !fullwidth_loop_nil, bind_Ok, app_nil_r.
  - rewrite !fullwidth_loop_cons.
    destruct (FULLWIDTH_UNICODE.[c]) as [g | e]; [| reflexivity].
    rewrite !bind_Ok, app_nil_l, (IH (acc ++ g)), (IH g).
    destruct (fullwidth_loop s []) as [out | e]; [| reflexivity].
    by rewrite !bind_Ok, app_assoc.
Qed.

Lemma fullwidth_loop_app s t acc :
  fullwidth_loop (s ++ t) acc = (a ← fullwidth_loop s acc; fullwidth_loop t a).
Proof.
  revert acc. induction s as [| c s IH]; intros acc.
  - by rewrite app_nil_l, fullwidth_loop_nil, bind_Ok.
  - rewrite <- app_comm_cons, !fullwidth_loop_cons.
    destruct (FULLWIDTH_UNICODE.[c]) as [g | e]; [| reflexivity].
    rewrite !bind_Ok. apply IH.
Qed.

(** X4. Without padding the encoder goes through a concatenation: the
    encoding of [s + t] is the encoding of [s] followed by the encoding of
    [t], and it raises what the first failing part raises. *)
Theorem string_to_fullwidth_concat (s t : pystr) (w : Z) :
  w <= 0 ->
  string_to_fullwidth (s ++ t) w =
    (a ← string_to_fullwidth s w; b ← string_to_fullwidth t w; Ok (a ++ b)).
Proof.
  intros Hw. unfold string_to_fullwidth.
  destruct (Z.ltb_spec 0 w); [lia |].
  rewrite fullwidth_loop_app.
  destruct (fullwidth_loop s []) as [a | e]; [| reflexivity].
  rewrite !bind_Ok. apply fullwidth_loop_acc.
Qed.

Lemma string_to_fullwidth_concat_witness :
  string_to_fullwidth (lit "MON" ++ lit "-5") 0 =
    (a ← string_to_fullwidth (lit "MON") 0;
     b ← string_to_fullwidth (lit "-5") 0; Ok (a ++ b)).
Proof. apply string_to_fullwidth_concat. lia. Defined.

(** ** The meridiem and the temperature *)

(** X5. [get_am_pm] raises nothing and splits the day at noon: the a.m.
    symbol exactly for an hour below 12, the p.m. symbol exactly from 12
    on, and the two symbols differ. *)
Theorem get_am_pm_noon (t : time) :
  (get_am_pm t = MERIDIEM_UNICODE.["SQUARE AM"] <-> hour t < 12) /\
  (get_am_pm t = MERIDIEM_UNICODE.["SQUARE PM"] <-> 12 <= hour t) /\
  is_Ok (get_am_pm t).
Proof.
  unfold get_am_pm, is_Ok. lookup_names.
  destruct (Z.ltb_spec (hour t) 12); (split; [| split]);
    try (split; intros; first [reflexivity | lia | discriminate]);
    by eexists.
Qed.

Lemma get_am_pm_noon_witness :
  get_am_pm (Time 12 0 0) = MERIDIEM_UNICODE.["SQUARE PM"].
Proof. apply (proj1 (proj2 (get_am_pm_noon (Time 12 0 0)))). simpl. lia. Defined.

(** Checking a property of the integers of an interval by running it. *)
Lemma forall_between (P : Z -> bool) (lo n : Z) :
  forallb P (seqZ lo n) = true ->
  forall z, lo <= z < lo + n -> P z = true.
Proof.
  intros H z Hz. rewrite forallb_forall in H. apply H.
  apply list_elem_of_In, elem_of_seqZ. lia.
Qed.

Lemma len_str_temperature t : -99 <= t <= 999 -> len (str t) <= 3.
Proof.
  intros Ht. apply Z.leb_le.
  apply (forall_between (fun z => len (str z) <=? 3) (-99) 1099);
    [vm_compute; reflexivity | lia].
Qed.

Lemma len_str_speed s : 0 <= s <= 99 -> len (str s) <= 2.
Proof.
  intros Hs. apply Z.leb_le.
  apply (forall_between (fun z => len (str z) <=? 2) 0 100);
    [vm_compute; reflexivity | lia].
Qed.

Lemma str_negative t : t < 0 -> exists d, str t = ch "-" :: d.
Proof.
  intros Ht. destruct t as [| p | p]; try lia.
  unfold str. cbn [Z.to_int]. by eexists.
Qed.

(** X6. [get_temperature] raises for no integer: it returns the fullwidth
    form of the decimal temperature right-justified to width 3, then the
    degree Celsius symbol.  From -99 to 999 that is a block of exactly 4
    code points; a temperature below zero carries the fullwidth minus. *)
Theorem get_temperature_format (t : Z) :
  exists encoded,
    get_temperature t = Ok (encoded ++ DEGREE_CELSIUS_UNICODE) /\
    string_to_fullwidth (str t) 3 = Ok encoded /\
    len encoded = Z.max (len (str t)) 3 /\
    (-99 <= t <= 999 -> len (encoded ++ DEGREE_CELSIUS_UNICODE) = 4) /\
    (t < 0 -> 0xFF0D%N ∈ encoded).
Proof.
  unfold get_temperature.
  rewrite (string_to_fullwidth_supported _ 3 (str_supported t)), bind_Ok.
  change (0 <? 3) with true. cbv iota.
  assert (Hlen : len (fullwidth_char <$> rjust (str t) 3)
                 = Z.max (len (str t)) 3).
  { unfold len at 1. rewrite length_fmap. apply length_rjust. }
  eexists. split; [reflexivity |]. split; [reflexivity |].
  split; [exact Hlen |]. split.
  - intros Ht. apply len_str_temperature in Ht.
    unfold len in *. rewrite length_app. cbn [length DEGREE_CELSIUS_UNICODE].
    lia.
  - intros Ht. destruct (str_negative t Ht) as [d Hd].
    apply list_elem_of_fmap. exists (ch "-"). split; [reflexivity |].
    unfold rjust. rewrite Hd. apply elem_of_app. right. by left.
Qed.

Lemma get_temperature_format_witness :
  exists encoded,
    get_temperature (-5) = Ok (encoded ++ DEGREE_CELSIUS_UNICODE) /\
    len (encoded ++ DEGREE_CELSIUS_UNICODE) = 4 /\
    0xFF0D%N ∈ encoded.
Proof.
  destruct (get_temperature_format (-5)) as (enc & H1 & _ & _ & H4 & H5).
  exists enc. split; [exact H1 |]. split; [apply H4; lia | apply H5; lia].
Defined.

(** ** More on the nice-day classifier *)

Lemma nice_dec f : {nice f} + {~ nice f}.
Proof.
  destruct (nice_weather [0; 1; 2; 3; 7] f) eqn:E; [left | right];
    rewrite <- nice_weather_spec; congruence.
Qed.

Lemma nice_day_loop_nice i f rest :
  nice f ->
  nice_day_loop [0; 1; 2; 3; 7] i (f :: rest)
  = nice_day_loop [0; 1; 2; 3; 7] (i + 1) rest.
Proof.
  intros Hf. apply nice_weather_spec in Hf.
  by rewrite nice_day_loop_cons, Hf.
Qed.

Lemma nice_day_loop_bad i f rest :
  ~ nice f ->
  nice_day_loop [0; 1; 2; 3; 7] i (f :: rest)
  = if i <=? 1 then Ok [0x1F62D%N] else Ok [0x1F610%N].
Proof.
  intros Hf. rewrite <- nice_weather_spec in Hf.
  apply not_true_is_false in Hf. by rewrite nice_day_loop_cons, Hf.
Qed.

(** From the third position on, the loop ends happy or neutral. *)
Lemma nice_day_loop_from_2 i l :
  2 <= i ->
  (Forall nice l /\ nice_day_loop [0; 1; 2; 3; 7] i l = Ok [0x1F603%N]) \/
  (Exists (fun f => ~ nice f) l /\
   nice_day_loop [0; 1; 2; 3; 7] i l = Ok [0x1F610%N]).
Proof.
  revert i. induction l as [| f l IH]; intros i Hi.
  - left. split; [constructor | apply nice_day_loop_nil].
  - destruct (nice_dec f) as [Hf | Hf].
    + rewrite (nice_day_loop_nice i f l Hf).
      destruct (IH (i + 1)) as [[Hl ->] | [Hl ->]]; [lia | |].
      * left. split; [by constructor | done].
      * right. split; [by apply Exists_cons_tl | done].
    + rewrite (nice_day_loop_bad i f l Hf).
      destruct (Z.leb_spec i 1); [lia |].
      right. split; [by apply Exists_cons_hd | done].
Qed.

(** Splitting the conjunctions and equivalences that are written in the
    goal, without unfolding [nice]. *)
Ltac split_props :=
  repeat match goal with
  | |- _ /\ _ => split
  | |- _ <-> _ => split
  end.

(** The three results of the loop, told by the list it runs over. *)
Lemma nice_day_loop_outcomes l :
  (nice_day_loop [0; 1; 2; 3; 7] 0 l = Ok [0x1F603%N] <-> Forall nice l) /\
  (nice_day_loop [0; 1; 2; 3; 7] 0 l = Ok [0x1F62D%N]
     <-> Exists (fun f => ~ nice f) (take 2 l)) /\
  (nice_day_loop [0; 1; 2; 3; 7] 0 l = Ok [0x1F610%N]
     <-> Forall nice (take 2 l) /\ Exists (fun f => ~ nice f) (drop 2 l)).
Proof.
  destruct l as [| a [| b rest]]; cbn [take drop].
  - rewrite nice_day_loop_nil, !Exists_nil, !Forall_nil.
    split_props; intros; try done; try tauto.
  - rewrite !Exists_cons, !Forall_cons, !Exists_nil, !Forall_nil.
    destruct (nice_dec a) as [Ha | Ha].
    + rewrite (nice_day_loop_nice 0 a [] Ha), nice_day_loop_nil.
      split_props; intros; try done; try tauto.
    + rewrite (nice_day_loop_bad 0 a [] Ha). cbn [Z.leb Z.compare].
      split_props; intros; try done; try tauto.
  - rewrite !Exists_cons, !Forall_cons, !Exists_nil, !Forall_nil.
    destruct (nice_dec a) as [Ha | Ha].
    + rewrite (nice_day_loop_nice 0 a _ Ha).
      destruct (nice_dec b) as [Hb | Hb].
      * rewrite (nice_day_loop_nice (0 + 1) b _ Hb).
        destruct (nice_day_loop_from_2 (0 + 1 + 1) rest) as [[Hr ->] | [Hr ->]];
          [lia | |].
        -- split_props; intros; try done; try tauto.
           destruct H as [_ H]. apply Exists_exists in H as (x & Hx & Hnx).
           rewrite Forall_forall in Hr. by specialize (Hr x Hx).
        -- split_props; intros; try done; try tauto.
           destruct H as (_ & _ & H). apply Exists_exists in Hr as (x & Hx & Hnx).
           rewrite Forall_forall in H. by specialize (H x Hx).
      * rewrite (nice_day_loop_bad (0 + 1) b _ Hb). cbn [Z.leb Z.compare Z.add].
        split_props; intros; try done; try tauto.
    + rewrite (nice_day_loop_bad 0 a _ Ha). cbn [Z.leb Z.compare].
      split_props; intros; try done; try tauto.
Qed.

(** The records of the window, from the most recent one back, at a position
    of the sequence. *)
Lemma reverse_window_lookup index forecasts (i : nat) :
  0 <= index < len forecasts -> (i <= 3)%nat -> Z.of_nat i <= index ->
  reverse (window index forecasts) !! i = forecasts !! Z.to_nat (index - Z.of_nat i).
Proof.
  unfold len. intros Hindex Hi Hi'.
  unfold window. rewrite omap_lookup_seqZ by lia.
  set (a := Z.to_nat (Z.max (index - 3) 0)).
  set (m := Z.to_nat (index - Z.max (index - 3) 0 + 1)).
  assert (Hlen : length (take m (drop a forecasts)) = m).
  { rewrite length_take, length_drop. lia. }
  rewrite reverse_lookup by lia. rewrite Hlen.
  rewrite lookup_take_lt by lia. rewrite lookup_drop. f_equal. lia.
Qed.

Lemma Exists_take_2 {A} (P : A -> Prop) (l : list A) :
  Exists P (take 2 l) <->
  (exists x, l !! 0%nat = Some x /\ P x) \/ (exists x, l !! 1%nat = Some x /\ P x).
Proof.
  destruct l as [| a [| b rest]]; cbn [take lookup list_lookup];
    rewrite ?Exists_cons, ?Exists_nil.
  - split; [done |]. by intros [(x & ? & _) | (x & ? & _)].
  - split.
    + intros [Ha | []]. left. by exists a.
    + intros [(x & [= <-] & Hx) | (x & ? & _)]; [by left | done].
  - split.
    + intros [Ha | [Hb | []]]; [left; by exists a | right; by exists b].
    + intros [(x & [= <-] & Hx) | (x & [= <-] & Hx)]; tauto.
Qed.

(** X7. Which face the classifier returns, for a position [index >= 0]:
    the happy face exactly when every record of the window is nice; the
    crying face exactly when one of the two most recent records of the
    window is not nice; the neutral face exactly when these two are nice and
    an older record of the window is not. *)
Theorem nice_day_outcomes (index : Z) (forecasts : list forecast) :
  0 <= index ->
  let recent := reverse (window index forecasts) in
  (calc_nice_day_emoticon index forecasts
     = EMOTICONS_UNICODE.["SMILEY FACE WITH OPEN MOUTH"]
   <-> Forall nice recent) /\
  (calc_nice_day_emoticon index forecasts
     = EMOTICONS_UNICODE.["LOUDLY CRYING FACE"]
   <-> Exists (fun f => ~ nice f) (take 2 recent)) /\
  (calc_nice_day_emoticon index forecasts
     = EMOTICONS_UNICODE.["NEUTRAL FACE"]
   <-> Forall nice (take 2 recent) /\
       Exists (fun f => ~ nice f) (drop 2 recent)).
Proof.
  intros Hindex recent.
  rewrite calc_nice_day_emoticon_unfold, slice_window by done.
  lookup_names. apply nice_day_loop_outcomes.
Qed.

Lemma nice_day_outcomes_witness :
  calc_nice_day_emoticon 3
    [sample 12 25 80; sample 1 5 0; sample 1 5 0; sample 1 5 0]
  = EMOTICONS_UNICODE.["NEUTRAL FACE"].
Proof.
  destruct (nice_day_outcomes 3
    [sample 12 25 80; sample 1 5 0; sample 1 5 0; sample 1 5 0])
    as (_ & _ & H); [lia |].
  apply H. split.
  - repeat constructor; apply nice_sample_sunny.
  - apply Exists_cons_tl, Exists_cons_hd, not_nice_sample_rain.
Defined.

(** X8. At a position of the sequence, the crying face is returned exactly
    when the record at [index] or the record just before it is not nice: the
    two most recent periods decide it, whatever the older ones are. *)
Theorem nice_day_crying_positions (index : Z) (forecasts : list forecast) :
  0 <= index < len forecasts ->
  (calc_nice_day_emoticon index forecasts
     = EMOTICONS_UNICODE.["LOUDLY CRYING FACE"]
   <-> (exists f, forecasts !! Z.to_nat index = Some f /\ ~ nice f) \/
       (1 <= index /\
        exists f, forecasts !! Z.to_nat (index - 1) = Some f /\ ~ nice f)).
Proof.
  intros Hindex.
  rewrite calc_nice_day_emoticon_unfold, slice_window by lia.
  lookup_names.
  rewrite (proj1 (proj2 (nice_day_loop_outcomes _))), Exists_take_2.
  rewrite (reverse_window_lookup index forecasts 0) by lia.
  rewrite Z.sub_0_r.
  destruct (decide (1 <= index)) as [H1 | H1].
  - rewrite (reverse_window_lookup index forecasts 1) by lia.
    change (Z.of_nat 1) with 1. tauto.
  - assert (index = 0) as -> by lia.
    assert (Hnone : reverse (window 0 forecasts) !! 1%nat = None).
    { apply lookup_ge_None. rewrite length_reverse. unfold window.
      rewrite omap_lookup_seqZ by lia. rewrite length_take.
      change (Z.to_nat (0 - Z.max (0 - 3) 0 + 1)) with 1%nat. lia. }
    rewrite Hnone. split.
    + intros [H | (x & ? & _)]; [by left | done].
    + intros [H | [? _]]; [by left | lia].
Qed.

Lemma nice_day_crying_positions_witness :
  calc_nice_day_emoticon 2 [sample 1 5 0; sample 1 20 0; sample 1 5 0]
  = EMOTICONS_UNICODE.["LOUDLY CRYING FACE"].
Proof.
  apply nice_day_crying_positions; [vm_compute; split; [discriminate | reflexivity] |].
  right. split; [lia |]. exists (sample 1 20 0). split; [reflexivity |].
  rewrite <- nice_weather_spec. vm_compute. discriminate.
Defined.

(** X9. The classifier has no bounds check and raises for no index.  When
    the slice is empty - an empty sequence, an index three or more places
    past the end, or the index -1 - it returns the happy face. *)
Theorem nice_day_empty_slice (index : Z) (forecasts : list forecast) :
  is_Ok (calc_nice_day_emoticon index forecasts) /\
  (forecasts = [] \/ len forecasts + 3 <= index \/ index = -1 ->
   calc_nice_day_emoticon index forecasts
   = EMOTICONS_UNICODE.["SMILEY FACE WITH OPEN MOUTH"]).
Proof.
  split.
  - destruct (calc_nice_day_emoticon_total index forecasts) as (g & Hg & _).
    by exists g.
  - intros Hedge. rewrite calc_nice_day_emoticon_unfold. lookup_names.
    assert (Hnil : slice forecasts (Z.max (index - 3) 0) (index + 1) = []).
    { unfold slice, clamp, len in *.
      destruct Hedge as [-> | [Hpast | ->]].
      - by rewrite drop_nil, take_nil.
      - destruct (Z.ltb_spec (Z.max (index - 3) 0) 0),
          (Z.ltb_spec (index + 1) 0); try lia.
        replace (Z.to_nat (Z.min (index + 1) (Z.of_nat (length forecasts))
                           - Z.min (Z.max (index - 3) 0)
                               (Z.of_nat (length forecasts))))
          with 0%nat by lia.
        apply take_0.
      - change (Z.max (-1 - 3) 0) with 0. change (-1 + 1) with 0.
        change (0 <? 0) with false. cbv iota.
        rewrite Z.sub_diag. apply take_0. }
    rewrite Hnil. reflexivity.
Qed.

Lemma nice_day_empty_slice_witness :
  calc_nice_day_emoticon 4 [sample 12 25 80]
  = EMOTICONS_UNICODE.["SMILEY FACE WITH OPEN MOUTH"].
Proof.
  apply (proj2 (nice_day_empty_slice 4 [sample 12 25 80])).
  right. left. vm_compute. discriminate.
Defined.

(** For an index below -1 the slice is a prefix of the sequence. *)
Lemma slice_negative_index (index : Z) (forecasts : list forecast) :
  index < -1 ->
  slice forecasts (Z.max (index - 3) 0) (index + 1)
  = take (Z.to_nat (len forecasts + index + 1)) forecasts.
Proof.
  intros Hindex. unfold slice, clamp, len.
  destruct (Z.ltb_spec (Z.max (index - 3) 0) 0),
    (Z.ltb_spec (index + 1) 0); try lia.
  replace (Z.to_nat (Z.min (Z.max (index - 3) 0)
                       (Z.of_nat (length forecasts)))) with 0%nat by lia.
  rewrite drop_0. f_equal. lia.
Qed.

(** X10. Below -1 the index counts from the end and the look-back is no
    longer limited to four records: the classifier runs over all the records
    before the position [len + index + 1], the last of them first.  The
    happy face then needs every one of them to be nice, the crying face one
    of the last two not to be, and the neutral face an earlier one. *)
Theorem nice_day_negative_index (index : Z) (forecasts : list forecast) :
  index < -1 ->
  let scanned :=
    reverse (take (Z.to_nat (len forecasts + index + 1)) forecasts) in
  (calc_nice_day_emoticon index forecasts
     = EMOTICONS_UNICODE.["SMILEY FACE WITH OPEN MOUTH"]
   <-> Forall nice scanned) /\
  (calc_nice_day_emoticon index forecasts
     = EMOTICONS_UNICODE.["LOUDLY CRYING FACE"]
   <-> Exists (fun f => ~ nice f) (take 2 scanned)) /\
  (calc_nice_day_emoticon index forecasts
     = EMOTICONS_UNICODE.["NEUTRAL FACE"]
   <-> Forall nice (take 2 scanned) /\
       Exists (fun f => ~ nice f) (drop 2 scanned)).
Proof.
  intros Hindex scanned.
  rewrite calc_nice_day_emoticon_unfold, slice_negative_index by done.
  lookup_names. apply nice_day_loop_outcomes.
Qed.

Lemma nice_day_negative_index_witness :
  calc_nice_day_emoticon (-2)
    [sample 12 25 80; sample 1 5 0; sample 1 5 0; sample 1 5 0; sample 1 5 0;
     sample 1 5 0]
  = EMOTICONS_UNICODE.["NEUTRAL FACE"].
Proof.
  destruct (nice_day_negative_index (-2)
    [sample 12 25 80; sample 1 5 0; sample 1 5 0; sample 1 5 0; sample 1 5 0;
     sample 1 5 0]) as (_ & _ & H); [lia |].
  apply H. split.
  - repeat constructor; apply nice_sample_sunny.
  - do 2 apply Exists_cons_tl. apply Exists_cons_hd, not_nice_sample_rain.
Defined.

(** X11. A happy line is a fair line: when the classifier returns the happy
    face at a position of the sequence, the record there is nice, its
    weather symbol is the moon, the sun, the sun behind a cloud or the
    cloud - never fog, rain, snow or thunder - and its wind is drawn with
    one arrow or with the paired arrows, never with three. *)
Theorem happy_line_is_fair (index : Z) (forecasts : list forecast)
    (f : forecast) :
  0 <= index ->
  forecasts !! Z.to_nat index = Some f ->
  calc_nice_day_emoticon index forecasts
    = EMOTICONS_UNICODE.["SMILEY FACE WITH OPEN MOUTH"] ->
  nice f /\
  (get_weather_icon (weather_type f) = WEATHER_UNICODE.["CRESCENT MOON"] \/
   get_weather_icon (weather_type f) = WEATHER_UNICODE.["BLACK SUN WITH RAYS"] \/
   get_weather_icon (weather_type f) = WEATHER_UNICODE.["SUN BEHIND CLOUD"] \/
   get_weather_icon (weather_type f) = WEATHER_UNICODE.["CLOUD"]) /\
  (exists arrow rest,
     get_wind_speed (wind_speed_mph f) = Ok (arrow ++ rest) /\
     (Ok arrow = ARROWS_UNICODE.["RIGHTWARDS ARROW"] \/
      Ok arrow = ARROWS_UNICODE.["RIGHTWARDS PAIRED ARROWS"])).
Proof.
  intros Hindex Hf Hhappy.
  assert (Hlt : index < len forecasts).
  { apply lookup_lt_Some in Hf. unfold len. lia. }
  rewrite calc_nice_day_emoticon_unfold, slice_window in Hhappy by done.
  lookup_names_in Hhappy.
  apply (proj1 (proj1 (nice_day_loop_outcomes _))) in Hhappy.
  assert (Hnice : nice f).
  { rewrite Forall_lookup in Hhappy. apply (Hhappy 0%nat).
    rewrite (reverse_window_lookup index forecasts 0) by lia.
    by rewrite Z.sub_0_r. }
  split; [exact Hnice |]. destruct Hnice as (Hw & Hs & _). split.
  - lookup_names. rewrite !elem_of_cons, elem_of_nil in Hw.
    by_icon_cases (weather_type f) ltac:(first [exfalso; lia | tauto]).
  - unfold get_wind_speed.
    rewrite (string_to_fullwidth_supported _ 2 (str_supported _)).
    lookup_names.
    destruct (Z.ltb_spec (wind_speed_mph f) 10);
      [| destruct (Z.ltb_spec (wind_speed_mph f) 20); [| lia]];
      rewrite !bind_Ok; eexists; eexists; (split; [reflexivity |]); tauto.
Qed.

Lemma happy_line_is_fair_witness :
  get_weather_icon 1 = WEATHER_UNICODE.["CRESCENT MOON"] \/
  get_weather_icon 1 = WEATHER_UNICODE.["BLACK SUN WITH RAYS"] \/
  get_weather_icon 1 = WEATHER_UNICODE.["SUN BEHIND CLOUD"] \/
  get_weather_icon 1 = WEATHER_UNICODE.["CLOUD"].
Proof.
  apply (happy_line_is_fair 1 [sample 1 5 0; sample 1 5 0] (sample 1 5 0)).
  - lia.
  - reflexivity.
  - reflexivity.
Defined.

(** ** The run of [main] *)

Lemma main_body_total forecasts : is_Ok (main_body forecasts).
Proof.
  destruct (main_loop_lines forecasts (enumerate forecasts) [])
    as (lines & _ & _ & Hloop).
  eexists. exact Hloop.
Qed.

(** X12. What a run of [main] comes to.  Without exactly one argument
    nothing is fetched and nothing is pushed.  An exception of the forecast
    source leaves [main].  Once the source has answered, composing the body
    never raises, so the [except] clause is only ever reached from the
    push: [push_note] is called, once, with the title [Weather for] followed
    by the location name and with the composed body - also when that body is
    empty. *)
Theorem main_outcomes (error : Type)
    (fetch : pystr -> error + (pystr * list forecast))
    (push : pystr -> pystr -> option error) (argv : list pystr) :
  (len argv <> 2 -> main error fetch push argv = No_location) /\
  (forall prog location, argv = [prog; location] ->
     (forall e, fetch location = inl e ->
        main error fetch push argv = Uncaught e) /\
     (forall name forecasts, fetch location = inr (name, forecasts) ->
        exists body,
          main_body forecasts = Ok body /\
          (push (lit "Weather for " ++ name) body = None ->
             main error fetch push argv
             = Sent (lit "Weather for " ++ name) body) /\
          (forall e, push (lit "Weather for " ++ name) body = Some e ->
             main error fetch push argv = Caught_pushing e))) /\
  (forall e, main error fetch push argv <> Caught_composing e).
Proof.
  split; [| split].
  - intros Hargv. unfold main.
    destruct (Z.eqb_spec (len argv) 2); [done | reflexivity].
  - intros prog location ->. unfold main.
    change (negb (len [prog; location] =? 2)) with false.
    change (default [] ([prog; location] !! 1%nat)) with location.
    cbv iota. split.
    + by intros e ->.
    + intros name forecasts ->.
      destruct (main_body_total forecasts) as [body Hbody].
      exists body. rewrite Hbody. split; [reflexivity |]. cbv zeta. split.
      * by intros ->.
      * by intros e ->.
  - intros e. unfold main.
    destruct (negb (len argv =? 2)); [discriminate |].
    destruct (fetch _) as [e' | [name forecasts]]; [discriminate |].
    destruct (main_body_total forecasts) as [body ->]. cbv zeta.
    destruct (push _ _); discriminate.
Qed.

Lemma main_outcomes_witness :
  main unit (fun _ => inr (lit "Exeter", [])) (fun _ _ => None)
    [lit "send.py"; lit "310069"; lit "extra"]
  = No_location.
Proof.
  apply (proj1 (main_outcomes unit (fun _ => inr (lit "Exeter", []))
                  (fun _ _ => None)
                  [lit "send.py"; lit "310069"; lit "extra"])).
  vm_compute. discriminate.
Defined.

(** ** The layout of the lines *)

Lemma day_token d :
  exists day,
    string_to_fullwidth (upper (strftime_a d)) 0 = Ok day /\ len day = 3.
Proof.
  rewrite (string_to_fullwidth_supported _ 0 (strftime_a_supported d)).
  eexists. split; [reflexivity |].
  change (0 <? 0) with false. cbv iota. unfold len, upper.
  rewrite !length_fmap. unfold strftime_a. by repeat case_match.
Qed.

Lemma get_am_pm_one t : exists g, get_am_pm t = Ok g /\ len g = 1.
Proof.
  unfold get_am_pm. lookup_names.
  destruct (hour t <? 12); eexists; (split; [reflexivity |]); reflexivity.
Qed.

Lemma calc_nice_day_emoticon_one i forecasts :
  exists g, calc_nice_day_emoticon i forecasts = Ok g /\ len g = 1.
Proof.
  rewrite calc_nice_day_emoticon_unfold.
  destruct (nice_day_loop_results [0; 1; 2; 3; 7] 0
    (reverse (slice forecasts (Z.max (i - 3) 0) (i + 1))))
    as [-> | [-> | ->]]; eexists; (split; [reflexivity |]); reflexivity.
Qed.

Lemma get_weather_icon_one c :
  exists g, get_weather_icon c = Ok g /\ len g = 1.
Proof.
  by_icon_cases c ltac:(eexists; (split; [reflexivity |]); reflexivity).
Qed.

Lemma get_temperature_len t :
  exists g, get_temperature t = Ok g /\ len g = Z.max (len (str t)) 3 + 1.
Proof.
  unfold get_temperature.
  rewrite (string_to_fullwidth_supported _ 3 (str_supported t)), bind_Ok.
  eexists. split; [reflexivity |].
  change (0 <? 3) with true. cbv iota. unfold len.
  rewrite length_app, length_fmap. fold (len (rjust (str t) 3)).
  pose proof (length_rjust (str t) 3) as H. unfold len in *.
  cbn [length DEGREE_CELSIUS_UNICODE]. lia.
Qed.

Lemma get_wind_speed_len s :
  exists g, get_wind_speed s = Ok g /\ len g = Z.max (len (str s)) 2 + 4.
Proof.
  unfold get_wind_speed.
  rewrite (string_to_fullwidth_supported _ 2 (str_supported s)).
  lookup_names.
  pose proof (length_rjust (str s) 2) as H. unfold len in H.
  destruct (s <? 10); [| destruct (s <? 20)]; rewrite !bind_Ok;
    (eexists; split; [reflexivity |]);
    change (0 <? 2) with true; cbv iota; unfold len;
    rewrite !length_app, length_fmap;
    change (length (lit "mph")) with 3%nat; cbn [length]; lia.
Qed.

(** The six pieces of a line and their lengths. *)
Lemma compose_line_layout i forecasts f :
  exists day am_pm emoticon icon temperature wind,
    compose_line i forecasts f
      = Ok (day ++ am_pm ++ emoticon ++ icon ++ temperature ++ wind) /\
    string_to_fullwidth (upper (strftime_a (from f))) 0 = Ok day /\
    get_am_pm (time_of (from f)) = Ok am_pm /\
    calc_nice_day_emoticon i forecasts = Ok emoticon /\
    get_weather_icon (weather_type f) = Ok icon /\
    get_temperature (temperature_c f) = Ok temperature /\
    get_wind_speed (wind_speed_mph f) = Ok wind /\
    len day = 3 /\ len am_pm = 1 /\ len emoticon = 1 /\ len icon = 1 /\
    len temperature = Z.max (len (str (temperature_c f))) 3 + 1 /\
    len wind = Z.max (len (str (wind_speed_mph f))) 2 + 4.
Proof.
  destruct (day_token (from f)) as (day & Hday & Hd).
  destruct (get_am_pm_one (time_of (from f))) as (am & Ham & Ha).
  destruct (calc_nice_day_emoticon_one i forecasts) as (em & Hem & He).
  destruct (get_weather_icon_one (weather_type f)) as (ic & Hic & Hi).
  destruct (get_temperature_len (temperature_c f)) as (te & Hte & Ht).
  destruct (get_wind_speed_len (wind_speed_mph f)) as (wi & Hwi & Hw).
  exists day, am, em, ic, te, wi. unfold compose_line.
  rewrite Hday, Ham, Hem, Hic, Hte, Hwi, !bind_Ok.
  by repeat split.
Qed.

(** The body is the lines of the selected records, joined. *)
Lemma main_body_joined forecasts :
  exists lines,
    main_body forecasts = Ok (join_lines lines) /\
    Forall2 (fun p line => compose_line p.1 forecasts p.2 = Ok line)
      (selected forecasts) lines /\
    Forall (fun line => line <> [] /\ Forall above_newline line) lines.
Proof.
  destruct (main_loop_lines forecasts (enumerate forecasts) [])
    as (lines & Hall & Hlines & Hloop).
  exists lines. split; [| by split].
  unfold main_body. rewrite Hloop. f_equal. apply fold_add_line_nil.
  eapply Forall_impl; [exact Hlines |]. by intros line [? _].
Qed.

(** X13. Every line of the note has the same layout: the three fullwidth
    letters of the day, one meridiem symbol, one face, one weather symbol,
    then the temperature block and the wind block that [get_temperature]
    and [get_wind_speed] return for the record.  So the fourth, fifth and
    sixth code points of a line are always the meridiem, the face and the
    weather symbol. *)
Theorem note_line_layout (forecasts : list forecast) :
  exists lines,
    main_body forecasts = Ok (join_lines lines) /\
    Forall2
      (fun p line =>
         exists day am_pm emoticon icon temperature wind,
           line = day ++ am_pm ++ emoticon ++ icon ++ temperature ++ wind /\
           string_to_fullwidth (upper (strftime_a (from p.2))) 0 = Ok day /\
           get_am_pm (time_of (from p.2)) = Ok am_pm /\
           calc_nice_day_emoticon p.1 forecasts = Ok emoticon /\
           get_weather_icon (weather_type p.2) = Ok icon /\
           get_temperature (temperature_c p.2) = Ok temperature /\
           get_wind_speed (wind_speed_mph p.2) = Ok wind /\
           len day = 3 /\ len am_pm = 1 /\ len emoticon = 1 /\ len icon = 1)
      (selected forecasts) lines.
Proof.
  destruct (main_body_joined forecasts) as (lines & Hbody & Hall & _).
  exists lines. split; [exact Hbody |].
  eapply Forall2_impl; [exact Hall |].
  intros [i f] line Hline. cbn [fst snd] in *.
  destruct (compose_line_layout i forecasts f)
    as (day & am & em & ic & te & wi & Heq & H1 & H2 & H3 & H4 & H5 & H6
        & L1 & L2 & L3 & L4 & _).
  rewrite Heq in Hline. injection Hline as <-.
  exists day, am, em, ic, te, wi. by repeat split.
Qed.

Lemma len_join_lines_16 lines :
  Forall (fun line => len line = 16) lines ->
  len (join_lines lines) = Z.max 0 (17 * len lines - 1).
Proof.
  intros Hlines. induction Hlines as [| line lines Hline Hlines IH].
  - reflexivity.
  - destruct lines as [| x lines].
    + cbn [join_lines]. unfold len in *. cbn [length]. lia.
    + rewrite join_lines_cons by done. unfold len in *.
      rewrite !length_app. cbn [length newline] in *. lia.
Qed.

Lemma selected_elem_of forecasts i f :
  (i, f) ∈ selected forecasts -> f ∈ forecasts.
Proof.
  unfold selected, enumerate. rewrite list_elem_of_filter.
  intros [_ Hin]. apply elem_of_enumerate_from in Hin as [_ Hin].
  by eapply list_elem_of_lookup_2.
Qed.

(** X14. The lines of a note are aligned.  When every temperature is from
    -99 to 999 and every wind speed from 0 to 99, each line has exactly 16
    code points, and a note of [n >= 1] lines has [17 n - 1] code points,
    the newlines between the lines included. *)
Theorem note_lines_aligned (forecasts : list forecast) :
  (forall f, f ∈ forecasts ->
     -99 <= temperature_c f <= 999 /\ 0 <= wind_speed_mph f <= 99) ->
  exists lines,
    main_body forecasts = Ok (join_lines lines) /\
    length lines = length (selected forecasts) /\
    Forall (fun line => len line = 16) lines /\
    len (join_lines lines) = Z.max 0 (17 * len lines - 1).
Proof.
  intros Hrange.
  destruct (main_body_joined forecasts) as (lines & Hbody & Hall & _).
  exists lines. split; [exact Hbody |].
  split; [symmetry; by eapply Forall2_length |].
  assert (Hwidth : Forall (fun line => len line = 16) lines).
  { eapply Forall2_Forall_r; [exact Hall |].
    apply Forall_forall. intros [i f] Hin line Hline. cbn [fst snd] in *.
    apply selected_elem_of, Hrange in Hin as [Ht Hs].
    apply len_str_temperature in Ht. apply len_str_speed in Hs.
    destruct (compose_line_layout i forecasts f)
      as (day & am & em & ic & te & wi & Heq & _ & _ & _ & _ & _ & _
          & L1 & L2 & L3 & L4 & L5 & L6).
    rewrite Heq in Hline. injection Hline as <-.
    unfold len in *. rewrite !length_app. lia. }
  split; [exact Hwidth |].
  by apply len_join_lines_16.
Qed.

Lemma note_lines_aligned_witness :
  exists lines,
    main_body [sample 1 5 0; at_period 5 (sample 12 25 80)]
      = Ok (join_lines lines) /\
    length lines
      = length (selected [sample 1 5 0; at_period 5 (sample 12 25 80)]) /\
    Forall (fun line => len line = 16) lines /\
    len (join_lines lines) = Z.max 0 (17 * len lines - 1).
Proof.
  apply note_lines_aligned. intros f Hf.
  apply list_elem_of_In in Hf. cbn [In] in Hf.
  destruct Hf as [<- | [<- | []]]; vm_compute; repeat split; discriminate.
Defined.

Lemma filter_newline_above (l : list N) :
  Forall above_newline l -> filter (fun c => c = 10%N) l = [].
Proof.
  induction 1 as [| c l Hc Hl IH]; [done |].
  rewrite filter_cons_False; [done |]. unfold above_newline in Hc. lia.
Qed.

Lemma filter_newline_join lines :
  Forall (fun line => line <> [] /\ Forall above_newline line) lines ->
  length (filter (fun c => c = 10%N) (join_lines lines : list N))
  = Nat.pred (length lines).
Proof.
  induction 1 as [| line lines [_ Hnl] Hlines IH]; [done |].
  destruct lines as [| x lines].
  - cbn [join_lines]. by rewrite filter_newline_above.
  - rewrite join_lines_cons by done.
    rewrite !filter_app, filter_newline_above by done.
    rewrite !length_app, IH. reflexivity.
Qed.

Lemma length_selected forecasts :
  length (selected forecasts)
  = length (filter (fun f => period_4_or_5 f = true) forecasts).
Proof.
  unfold selected, enumerate. generalize 0.
  induction forecasts as [| f forecasts IH]; intros start; [done |].
  cbn [enumerate_from]. rewrite !filter_cons. cbn [snd].
  destruct (decide (period_4_or_5 f = true)); cbn [length]; by rewrite IH.
Qed.

(** X15. The note has as many lines as there are selected records: the
    body that [main] composes holds one newline less than the number of
    records of period 4 or 5 (and none when there is no such record). *)
Theorem note_newline_count (forecasts : list forecast) :
  exists body,
    main_body forecasts = Ok body /\
    length (filter (fun c => c = 10%N) (body : list N))
    = Nat.pred (length (filter (fun f => period_4_or_5 f = true) forecasts)).
Proof.
  destruct (main_body_joined forecasts) as (lines & Hbody & Hall & Hlines).
  exists (join_lines lines). split; [exact Hbody |].
  rewrite (filter_newline_join lines Hlines).
  apply Forall2_length in Hall. f_equal.
  transitivity (length (selected forecasts)); [symmetry; exact Hall |].
  apply length_selected.
Qed.

(** ** A longer forecast *)

Lemma enumerate_from_app {A} (l1 l2 : list A) start :
  enumerate_from start (l1 ++ l2)
  = enumerate_from start l1 ++ enumerate_from (start + len l1) l2.
Proof.
  revert start. induction l1 as [| a l1 IH]; intros start.
  - unfold len. cbn [app enumerate_from length Z.of_nat].
    by rewrite Z.add_0_r.
  - cbn [app enumerate_from]. rewrite IH. unfold len. cbn [length].
    by replace (start + 1 + Z.of_nat (length l1))
      with (start + Z.of_nat (S (length l1))) by lia.
Qed.

Lemma main_loop_app forecasts todo1 todo2 body :
  main_loop forecasts (todo1 ++ todo2) body
  = (b ← main_loop forecasts todo1 body; main_loop forecasts todo2 b).
Proof.
  revert body. induction todo1 as [| [i f] todo1 IH]; intros body.
  - reflexivity.
  - rewrite <- app_comm_cons, !main_loop_cons.
    destruct (period_4_or_5 f); [| apply IH].
    destruct (compose_line i forecasts f) as [line | e]; [| reflexivity].
    rewrite !bind_Ok. apply IH.
Qed.

Lemma main_loop_ext forecasts1 forecasts2 todo body :
  (forall i f, (i, f) ∈ todo ->
     compose_line i forecasts1 f = compose_line i forecasts2 f) ->
  main_loop forecasts1 todo body = main_loop forecasts2 todo body.
Proof.
  revert body. induction todo as [| [i f] todo IH]; intros body Hext.
  - reflexivity.
  - rewrite !main_loop_cons. rewrite (Hext i f) by (by left).
    assert (Hrest : forall b,
      main_loop forecasts1 todo b = main_loop forecasts2 todo b).
    { intros b. apply IH. intros j g Hin. apply Hext. by right. }
    destruct (period_4_or_5 f); [| apply Hrest].
    destruct (compose_line i forecasts2 f) as [line | e]; [| reflexivity].
    rewrite !bind_Ok. apply Hrest.
Qed.

(** The classifier at a position of a sequence does not see what comes
    after the sequence. *)
Lemma calc_nice_day_emoticon_app index forecasts1 forecasts2 :
  0 <= index < len forecasts1 ->
  calc_nice_day_emoticon index (forecasts1 ++ forecasts2)
  = calc_nice_day_emoticon index forecasts1.
Proof.
  intros Hindex. rewrite !calc_nice_day_emoticon_unfold, !slice_window by lia.
  f_equal. f_equal. unfold window. apply omap_ext_in.
  intros k Hk. apply elem_of_seqZ in Hk. apply lookup_app_l.
  unfold len in Hindex. lia.
Qed.

Lemma fold_add_line_prefix lines body :
  body `prefix_of` fold_left add_line lines body.
Proof.
  revert body. induction lines as [| line lines IH]; intros body; [done |].
  cbn [fold_left]. etrans; [| apply IH].
  unfold add_line. case_bool_decide.
  - by do 2 apply prefix_app_r.
  - by apply prefix_app_r.
Qed.

(** X16. A longer forecast only adds to the note: the body composed for a
    sequence is a prefix of the body composed for that sequence followed by
    later forecasts.  The lines already written, their faces included, do
    not depend on what comes after them. *)
Theorem note_prefix_stable (forecasts later : list forecast) :
  exists body longer,
    main_body forecasts = Ok body /\
    main_body (forecasts ++ later) = Ok longer /\
    body `prefix_of` longer.
Proof.
  destruct (main_body_total forecasts) as [body Hbody].
  exists body. unfold main_body, enumerate in *.
  rewrite enumerate_from_app, main_loop_app.
  rewrite (main_loop_ext (forecasts ++ later) forecasts).
  - rewrite Hbody, bind_Ok.
    destruct (main_loop_lines (forecasts ++ later)
                (enumerate_from (0 + len forecasts) later) body)
      as (lines & _ & _ & ->).
    eexists. split; [reflexivity |]. split; [reflexivity |].
    apply fold_add_line_prefix.
  - intros i f Hin. apply elem_of_enumerate_from in Hin as [Hi Hf].
    apply lookup_lt_Some in Hf. unfold compose_line.
    rewrite calc_nice_day_emoticon_app; [done |]. unfold len. lia.
Qed.

Example two_line_note :
  main_body [sample 1 5 0; at_period 5 (sample 12 25 80)]
  = Ok (join_lines
      [ [0xFF2D; 0xFF2F; 0xFF2E; 0x33C2; 0x1F603; 0x2600;
         0x3000; 0xFF11; 0xFF10; 0x2103; 0x2192; 0x3000; 0xFF15]%N
        ++ lit "mph";
        [0xFF2D; 0xFF2F; 0xFF2E; 0x33C2; 0x1F62D; 0x2614;
         0x3000; 0xFF11; 0xFF10; 0x2103; 0x21F6; 0xFF12; 0xFF15]%N
        ++ lit "mph" ]).
Proof. vm_compute. reflexivity. Qed.
